(** * A shallow embedding of [main.py]

    The script uploads a document, attaches it to a vector store, polls the
    ingestion job, asks one retrieval-augmented question and deletes what it
    created.  Every interesting step is a call to the vendor SDK, so the
    embedding keeps the control flow of the three Python functions
    ([upload_to_vector_store], [cleanup], [main]) and treats the SDK as an
    oracle: a [World] answers each call, knowing the whole history of events,
    either with a value or with an exception.  The program itself is a
    function in a small state-and-exception monad whose state holds the
    module-level global [UPLOADED_FILE_ID] and the chronological trace of
    observable events (SDK calls, [print], [time.sleep]).

    The [while True] loop is given fuel, one unit per iteration; running out
    of fuel is a third outcome, distinct from returning and from raising. *)

From Stdlib Require Import String List ZArith Lia Bool Arith.
Import ListNotations.

Local Open Scope string_scope.
Local Open Scope list_scope.

(** ** Python values the script handles *)

(** Instances of Python's [Exception], which is what [except Exception]
    catches.  The SDK and the operating system raise [APIError]s of their
    own choosing; the interpreter raises the two others when the script
    reads an attribute of [None] or a local variable that was never
    assigned.  Signals outside [Exception] ([KeyboardInterrupt],
    [SystemExit]) are not answers of the service and are left out. *)
Inductive Exception : Type :=
| APIError (message : string)
| AttributeError (message : string)
| UnboundLocalError (message : string).

(** [str(e)], as the f-strings of the handlers format it. *)
Definition str (e : Exception) : string :=
  match e with
  | APIError m => m
  | AttributeError m => m
  | UnboundLocalError m => m
  end.

(** What a call into the outside world answers. *)
Inductive reply (A : Type) : Type :=
| Ok (a : A)
| Err (e : Exception).
Arguments Ok {A} a.
Arguments Err {A} e.

(** [uploaded_file]: the script reads [.id]. *)
Record FileObject : Type := { fo_id : string }.

(** [vector_store]: the script reads [.id]. *)
Record VectorStore : Type := { vs_id : string }.

(** [vector_store_file] and [file_uploaded]: the script reads [.id] and
    [.status] and calls [.last_error()]. *)
Record VectorStoreFile : Type :=
  { vsf_id : string;
    vsf_status : string;
    vsf_last_error : reply string }.

(** [response]: the script reads [.id] and calls [.model_dump_json(indent)]. *)
Record Response : Type :=
  { resp_id : string;
    resp_model_dump_json : Z -> reply string }.

(** ** Observable events *)

(** One constructor per kind of call the script makes, with the arguments
    that vary or that the claims speak of; the ranking options of the
    search tool, two constants, are not recorded. *)

Inductive event : Type :=
| Print (text : string)
| Open (path mode : string)
| Close (path : string)
| FilesCreate (path purpose : string)
| VectorStoresCreate (name anchor : string) (days : Z)
| VectorStoresFilesCreate (vector_store_id : string)
    (max_chunk_size_tokens chunk_overlap_tokens : Z)
    (file_id : string) (attributes : list (string * string))
| VectorStoresFilesPoll (file_id vector_store_id : string)
| Sleep (seconds : Z)
| VectorStoresDelete (vector_store_id : string)
| ResponsesDelete (response_id : string)
| FilesDelete (file_id : string)
| ResponsesCreate (model : option string) (input : string)
    (vector_store_ids : list string) (max_num_results : Z)
    (filter_key filter_value : string) (include : list string).

Definition history : Type := list event.

(** The vendor service and the file system.  Each field answers one kind of
    call, given everything that happened before it. *)
Record World : Type :=
  { w_open : history -> string -> reply unit;
    w_files_create : history -> string -> string -> reply FileObject;
    w_vector_stores_create : history -> string -> reply VectorStore;
    w_vector_stores_files_create :
      history -> string -> string -> reply VectorStoreFile;
    w_vector_stores_files_poll :
      history -> string -> string -> reply VectorStoreFile;
    w_vector_stores_delete : history -> string -> reply unit;
    w_responses_delete : history -> string -> reply unit;
    w_files_delete : history -> string -> reply unit;
    w_responses_create : history -> list string -> reply Response }.

(** ** The monad *)

Record state : Type :=
  { UPLOADED_FILE_ID : string;
    trace : history }.

Definition log (ev : event) (st : state) : state :=
  {| UPLOADED_FILE_ID := UPLOADED_FILE_ID st;
     trace := trace st ++ [ev] |}.

Definition logs (evs : list event) (st : state) : state :=
  {| UPLOADED_FILE_ID := UPLOADED_FILE_ID st;
     trace := trace st ++ evs |}.

Inductive outcome (A : Type) : Type :=
| Return (a : A)
| Raise (e : Exception)
| OutOfFuel.
Arguments Return {A} a.
Arguments Raise {A} e.
Arguments OutOfFuel {A}.

Definition M (A : Type) : Type := state -> outcome A * state.

Definition ret {A} (a : A) : M A := fun st => (Return a, st).

Definition raise {A} (e : Exception) : M A := fun st => (Raise e, st).

Definition out_of_fuel {A} : M A := fun st => (OutOfFuel, st).

Definition bind {A B} (m : M A) (k : A -> M B) : M B :=
  fun st =>
    match m st with
    | (Return a, st') => k a st'
    | (Raise e, st') => (Raise e, st')
    | (OutOfFuel, st') => (OutOfFuel, st')
    end.

Declare Scope py_scope.
Delimit Scope py_scope with py.
Notation "x <- m ;; k" := (bind m (fun x => k))
  (at level 100, m at next level, right associativity) : py_scope.
Notation "m ;; k" := (bind m (fun _ => k))
  (at level 100, right associativity) : py_scope.
Local Open Scope py_scope.

(** [try: body  except Exception as e: handler e]. *)
Definition try_except {A} (body : M A) (handler : Exception -> M A) : M A :=
  fun st =>
    match body st with
    | (Raise e, st') => handler e st'
    | r => r
    end.

(** [for x in xs: body x]. *)
Fixpoint for_in {A} (xs : list A) (body : A -> M unit) : M unit :=
  match xs with
  | [] => ret tt
  | x :: rest => body x ;; for_in rest body
  end.

Definition print (text : string) : M unit :=
  fun st => (Return tt, log (Print text) st).

Definition sleep (seconds : Z) : M unit :=
  fun st => (Return tt, log (Sleep seconds) st).

(** A call into the world: the oracle sees the history before the call, and
    the call is recorded whether it returns or raises. *)
Definition call {A} (ev : event) (oracle : history -> reply A) : M A :=
  fun st =>
    match oracle (trace st) with
    | Ok a => (Return a, log ev st)
    | Err e => (Raise e, log ev st)
    end.

(** Calling a method of an object the world handed out. *)
Definition invoke {A} (r : reply A) : M A :=
  fun st =>
    match r with
    | Ok a => (Return a, st)
    | Err e => (Raise e, st)
    end.

Definition get_UPLOADED_FILE_ID : M string :=
  fun st => (Return (UPLOADED_FILE_ID st), st).

Definition set_UPLOADED_FILE_ID (v : string) : M unit :=
  fun st => (Return tt, {| UPLOADED_FILE_ID := v; trace := trace st |}).

(** [with open(path, mode) as f: body]: the file is closed on the way out,
    however the body ends. *)
Definition with_open {A} (w : World) (path mode : string) (body : M A) : M A :=
  call (Open path mode) (fun h => w_open w h path) ;;
  fun st => let (r, st') := body st in (r, log (Close path) st').

(** Truth value of a string: [not s] holds for the empty string only. *)
Definition py_not (s : string) : bool :=
  match s with
  | EmptyString => true
  | String _ _ => false
  end.

(** ** The program *)

Section Program.

Variable w : World.

(** Module-level configuration read from the environment at import time
    ([os.getenv] gives [None] for a variable that is not set). *)
Variable AZURE_OPENAI_DEPLOYMENT_NAME : option string.

(** [cleanup(aoai_client, vector_store_ids, response_ids)], lines 93-113. *)
Definition cleanup (vector_store_ids response_ids : list string) : M unit :=
  for_in vector_store_ids (fun vector_store_id =>
    try_except
      (print ("Deleting vector store " ++ vector_store_id ++ "...") ;;
       call (VectorStoresDelete vector_store_id)
            (fun h => w_vector_stores_delete w h vector_store_id))
      (fun e =>
         print ("Error deleting vector store " ++ vector_store_id
                ++ ": " ++ str e))) ;;
  for_in response_ids (fun response_id =>
    try_except
      (print ("Deleting response " ++ response_id ++ "...") ;;
       call (ResponsesDelete response_id)
            (fun h => w_responses_delete w h response_id))
      (fun e =>
         print ("Error deleting response " ++ response_id
                ++ ": " ++ str e))) ;;
  print "Deleting uploaded file..." ;;
  file_id <- get_UPLOADED_FILE_ID ;;
  call (FilesDelete file_id) (fun h => w_files_delete w h file_id) ;;
  print "Cleanup completed.".

(** How the [while True] loop of lines 74-88 is left: by [break], after which
    line 90 runs, or by the bare [return] of line 85. *)
Inductive loop_exit : Type :=
| Break
| ReturnNone.

(** The loop of lines 74-88; [fuel] bounds the number of iterations. *)
Fixpoint poll_loop (fuel : nat) (vector_store : VectorStore)
    (vector_store_file : VectorStoreFile) : M loop_exit :=
  match fuel with
  | O => out_of_fuel
  | S fuel' =>
      file_uploaded <-
        call (VectorStoresFilesPoll (vsf_id vector_store_file)
                                    (vs_id vector_store))
             (fun h => w_vector_stores_files_poll w h
                         (vsf_id vector_store_file) (vs_id vector_store)) ;;
      if vsf_status file_uploaded =? "completed" then
        print "File batch completed successfully." ;;
        ret Break
      else if vsf_status file_uploaded =? "failed" then
        detail <- invoke (vsf_last_error file_uploaded) ;;
        print ("File batch failed. %s " ++ detail) ;;
        cleanup [vs_id vector_store] [] ;;
        ret ReturnNone
      else
        print ("File batch status: " ++ vsf_status file_uploaded) ;;
        sleep 5 ;;
        poll_loop fuel' vector_store vector_store_file
  end.

(** Lines 34-44: upload the file unless an id is already known. *)
Definition ensure_uploaded (file_path : string) : M unit :=
  known <- get_UPLOADED_FILE_ID ;;
  if py_not known then
    with_open w file_path "rb"
      (uploaded_file <-
         call (FilesCreate file_path "assistants")
              (fun h => w_files_create w h file_path "assistants") ;;
       set_UPLOADED_FILE_ID (fo_id uploaded_file) ;;
       print ("File ID: " ++ fo_id uploaded_file))
  else
    print ("Using existing file ID: " ++ known).

(** Lines 47-71: create the vector store and attach the file to it. *)
Definition create_and_attach (vector_store_name : string)
    : M (VectorStore * VectorStoreFile) :=
  vector_store <-
    call (VectorStoresCreate vector_store_name "last_active_at" 7)
         (fun h => w_vector_stores_create w h vector_store_name) ;;
  print ("Vector Store ID: " ++ vs_id vector_store) ;;
  file_id <- get_UPLOADED_FILE_ID ;;
  vector_store_file <-
    call (VectorStoresFilesCreate (vs_id vector_store) 100 20 file_id
            [("source", "Contoso"); ("category", "Marketing")])
         (fun h => w_vector_stores_files_create w h
                     (vs_id vector_store) file_id) ;;
  ret (vector_store, vector_store_file).

(** Lines 34-71, everything [upload_to_vector_store] does before it polls. *)
Definition before_polling (file_path vector_store_name : string)
    : M (VectorStore * VectorStoreFile) :=
  ensure_uploaded file_path ;;
  create_and_attach vector_store_name.

(** [upload_to_vector_store(aoai_client, file_path, vector_store_name)],
    lines 31-90.  The result is [Some vector_store], or [None] for Python's
    [None]. *)
Definition upload_to_vector_store (fuel : nat)
    (file_path vector_store_name : string) : M (option VectorStore) :=
  created <- before_polling file_path vector_store_name ;;
  exit <- poll_loop fuel (fst created) (snd created) ;;
  match exit with
  | Break => ret (Some (fst created))
  | ReturnNone => ret None
  end.

(** A local variable of [main]: not yet assigned, or holding a value. *)
Inductive local (A : Type) : Type :=
| Unbound
| Bound (a : A).
Arguments Unbound {A}.
Arguments Bound {A} a.

Record main_locals : Type :=
  { vector_store_var : local (option VectorStore);
    response_var : local Response }.

(** Reading a local variable. *)
Definition load {A} (name : string) (v : local A) : M A :=
  match v with
  | Bound a => ret a
  | Unbound =>
      raise (UnboundLocalError
               ("cannot access local variable '" ++ name
                ++ "' where it is not associated with a value"))
  end.

(** [vector_store.id], where [vector_store] may be [None]. *)
Definition vector_store_dot_id (v : option VectorStore) : M string :=
  match v with
  | Some vs => ret (vs_id vs)
  | None => raise (AttributeError "'NoneType' object has no attribute 'id'")
  end.

(** The body of the [try] of [main], lines 128-157, together with the local
    variables as they stand when the body is left. *)
Definition main_try (fuel : nat) (st : state)
    : outcome unit * main_locals * state :=
  let locals0 := {| vector_store_var := Unbound; response_var := Unbound |} in
  match upload_to_vector_store fuel "./Contoso_Brochure.pdf"
          "Travel Brochure" st with
  | (Raise e, st1) => (Raise e, locals0, st1)
  | (OutOfFuel, st1) => (OutOfFuel, locals0, st1)
  | (Return vector_store, st1) =>
      let locals1 :=
        {| vector_store_var := Bound vector_store;
           response_var := Unbound |} in
      match
        (id <- vector_store_dot_id vector_store ;;
         call (ResponsesCreate AZURE_OPENAI_DEPLOYMENT_NAME
                 "What is Contoso Travel Agency's phone number?"
                 [id] 1 "category" "Marketing"
                 ["file_search_call.results"])
              (fun h => w_responses_create w h [id])) st1
      with
      | (Raise e, st2) => (Raise e, locals1, st2)
      | (OutOfFuel, st2) => (OutOfFuel, locals1, st2)
      | (Return response, st2) =>
          let locals2 :=
            {| vector_store_var := Bound vector_store;
               response_var := Bound response |} in
          let (r, st3) :=
            (json <- invoke (resp_model_dump_json response 2) ;;
             print json) st2 in
          (r, locals2, st3)
      end
  end.

(** [main()], from line 127 on: the client has been constructed. *)
Definition main (fuel : nat) : M unit :=
  fun st =>
    let '(r, locals, st1) := main_try fuel st in
    let after_try : M unit :=
      match r with
      | Return _ => ret tt
      | Raise e => print ("An error occurred: " ++ str e)
      | OutOfFuel => out_of_fuel
      end in
    (after_try ;;
     vector_store <- load "vector_store" (vector_store_var locals) ;;
     vector_store_id <- vector_store_dot_id vector_store ;;
     response <- load "response" (response_var locals) ;;
     cleanup [vector_store_id] [resp_id response]) st1.

End Program.

(** ** Reading traces *)

Definition is_print (ev : event) : bool :=
  match ev with Print _ => true | _ => false end.

Definition is_poll (ev : event) : bool :=
  match ev with VectorStoresFilesPoll _ _ => true | _ => false end.

Definition is_sleep (ev : event) : bool :=
  match ev with Sleep _ => true | _ => false end.

Definition is_upload (ev : event) : bool :=
  match ev with FilesCreate _ _ => true | _ => false end.

Definition is_deletion (ev : event) : bool :=
  match ev with
  | VectorStoresDelete _ | ResponsesDelete _ | FilesDelete _ => true
  | _ => false
  end.

(** Events that are printed lines or deletion calls: all that [cleanup]
    produces. *)
Definition quiet (ev : event) : bool := is_print ev || is_deletion ev.

(** Number of status checks, delays and uploads in a run of events. *)
Definition polls (evs : list event) : nat := length (filter is_poll evs).
Definition sleeps (evs : list event) : nat := length (filter is_sleep evs).
Definition uploads (evs : list event) : nat := length (filter is_upload evs).

(** The deletion calls of a run of events, in the order they were made. *)
Definition deletions (evs : list event) : list event :=
  filter is_deletion evs.

(** What is left of a run of events once the printed lines are dropped. *)
Definition calls (evs : list event) : list event :=
  filter (fun ev => negb (is_print ev)) evs.

(** The file ids handed to the batch attach, in order. *)
Fixpoint attached_file_ids (evs : list event) : list string :=
  match evs with
  | [] => []
  | VectorStoresFilesCreate _ _ _ file_id _ :: rest =>
      file_id :: attached_file_ids rest
  | _ :: rest => attached_file_ids rest
  end.

(** ** Worlds to run the program in *)

(** The status a scripted job reports at its [n]-th check (counted from 0):
    the [n]-th entry of the script, "in_progress" once it is exhausted. *)
Fixpoint status_at (statuses : list string) (n : nat) : string :=
  match statuses with
  | [] => "in_progress"
  | s :: rest =>
      match n with
      | O => s
      | S n' => status_at rest n'
      end
  end.

(** A service in which every call succeeds, except as the parameters say:
    status checks follow the script [statuses], [.last_error()] answers
    [detail], creating a vector store answers [store] and deleting a file
    answers [file_deletion]. *)
Definition scripted (statuses : list string) (detail : reply string)
    (store : reply VectorStore) (file_deletion : reply unit) : World :=
  {| w_open := fun _ _ => Ok tt;
     w_files_create := fun _ _ _ => Ok {| fo_id := "file_1" |};
     w_vector_stores_create := fun _ _ => store;
     w_vector_stores_files_create := fun _ _ file_id =>
       Ok {| vsf_id := file_id; vsf_status := "in_progress";
             vsf_last_error := detail |};
     w_vector_stores_files_poll := fun h file_id _ =>
       Ok {| vsf_id := file_id;
             vsf_status := status_at statuses (polls h);
             vsf_last_error := detail |};
     w_vector_stores_delete := fun _ _ => Ok tt;
     w_responses_delete := fun _ _ => Ok tt;
     w_files_delete := fun _ _ => file_deletion;
     w_responses_create := fun _ _ =>
       Ok {| resp_id := "resp_1";
             resp_model_dump_json := fun _ => Ok "{}" |} |}.

Definition store_1 : VectorStore := {| vs_id := "vs_1" |}.

(** The arguments [main] passes to [upload_to_vector_store]. *)
Definition brochure : string := "./Contoso_Brochure.pdf".
Definition travel : string := "Travel Brochure".

(** What a scripted service hands out for the attached file, and what it
    answers to a status check. *)
Definition attached (file_id : string) (detail : reply string)
    : VectorStoreFile :=
  {| vsf_id := file_id; vsf_status := "in_progress";
     vsf_last_error := detail |}.
Definition checked (file_id status : string) (detail : reply string)
    : VectorStoreFile :=
  {| vsf_id := file_id; vsf_status := status; vsf_last_error := detail |}.

(** The process as it starts, with and without a configured file id. *)
Definition fresh : state := {| UPLOADED_FILE_ID := ""; trace := [] |}.
Definition configured : state :=
  {| UPLOADED_FILE_ID := "file_0"; trace := [] |}.

(** The job completes at the first check. *)
Definition world_completed : World :=
  scripted ["completed"] (Ok "") (Ok store_1) (Ok tt).

(** The job fails at the first check and reports a detail. *)
Definition world_failed : World :=
  scripted ["failed"] (Ok "server_error") (Ok store_1) (Ok tt).

(** The job needs three checks. *)
Definition world_three_checks : World :=
  scripted ["in_progress"; "in_progress"; "completed"] (Ok "")
    (Ok store_1) (Ok tt).

(** The job is cancelled on the server and stays so. *)
Definition world_cancelled : World :=
  scripted (repeat "cancelled" 8) (Ok "") (Ok store_1) (Ok tt).

(** The job never leaves "in_progress". *)
Definition world_stuck : World :=
  scripted [] (Ok "") (Ok store_1) (Ok tt).

(** The uploaded file cannot be deleted. *)
Definition world_file_gone : World :=
  scripted ["completed"] (Ok "") (Ok store_1)
    (Err (APIError "No such File object: file_1")).

(** The vector store cannot be created. *)
Definition world_no_store : World :=
  scripted [] (Ok "") (Err (APIError "Connection error.")) (Ok tt).

(** [world] with some of its answers replaced. *)
Definition with_open_reply (world : World) (r : reply unit) : World :=
  {| w_open := fun _ _ => r;
     w_files_create := w_files_create world;
     w_vector_stores_create := w_vector_stores_create world;
     w_vector_stores_files_create := w_vector_stores_files_create world;
     w_vector_stores_files_poll := w_vector_stores_files_poll world;
     w_vector_stores_delete := w_vector_stores_delete world;
     w_responses_delete := w_responses_delete world;
     w_files_delete := w_files_delete world;
     w_responses_create := w_responses_create world |}.

Definition with_upload_reply (world : World) (r : reply FileObject) : World :=
  {| w_open := w_open world;
     w_files_create := fun _ _ _ => r;
     w_vector_stores_create := w_vector_stores_create world;
     w_vector_stores_files_create := w_vector_stores_files_create world;
     w_vector_stores_files_poll := w_vector_stores_files_poll world;
     w_vector_stores_delete := w_vector_stores_delete world;
     w_responses_delete := w_responses_delete world;
     w_files_delete := w_files_delete world;
     w_responses_create := w_responses_create world |}.

Definition with_check_reply (world : World) (r : reply VectorStoreFile)
    : World :=
  {| w_open := w_open world;
     w_files_create := w_files_create world;
     w_vector_stores_create := w_vector_stores_create world;
     w_vector_stores_files_create := w_vector_stores_files_create world;
     w_vector_stores_files_poll := fun _ _ _ => r;
     w_vector_stores_delete := w_vector_stores_delete world;
     w_responses_delete := w_responses_delete world;
     w_files_delete := w_files_delete world;
     w_responses_create := w_responses_create world |}.

Definition with_store_deletion_reply (world : World) (r : reply unit)
    : World :=
  {| w_open := w_open world;
     w_files_create := w_files_create world;
     w_vector_stores_create := w_vector_stores_create world;
     w_vector_stores_files_create := w_vector_stores_files_create world;
     w_vector_stores_files_poll := w_vector_stores_files_poll world;
     w_vector_stores_delete := fun _ _ => r;
     w_responses_delete := w_responses_delete world;
     w_files_delete := w_files_delete world;
     w_responses_create := w_responses_create world |}.

Definition with_response_reply (world : World) (r : reply Response) : World :=
  {| w_open := w_open world;
     w_files_create := w_files_create world;
     w_vector_stores_create := w_vector_stores_create world;
     w_vector_stores_files_create := w_vector_stores_files_create world;
     w_vector_stores_files_poll := w_vector_stores_files_poll world;
     w_vector_stores_delete := w_vector_stores_delete world;
     w_responses_delete := w_responses_delete world;
     w_files_delete := w_files_delete world;
     w_responses_create := fun _ _ => r |}.

(** The file is not there to be opened. *)
Definition world_no_file : World :=
  with_open_reply world_completed
    (Err (APIError "No such file or directory: './Contoso_Brochure.pdf'")).

(** The upload is refused. *)
Definition world_no_upload : World :=
  with_upload_reply world_completed (Err (APIError "Invalid file format.")).

(** The status check itself fails. *)
Definition world_no_check : World :=
  with_check_reply world_completed (Err (APIError "Request timed out.")).

(** The job fails and the call for the detail raises: the status object
    has a [last_error] attribute that is not callable, so that
    [.last_error()] is Python's "object is not callable" error, carried
    here as the answer of that call. *)
Definition world_no_detail : World :=
  scripted ["failed"] (Err (APIError "'LastError' object is not callable"))
    (Ok store_1) (Ok tt).

(** The vector store cannot be deleted. *)
Definition world_store_stays : World :=
  with_store_deletion_reply world_completed
    (Err (APIError "No vector store found with id 'vs_1'.")).

(** The question cannot be asked. *)
Definition world_no_response : World :=
  with_response_reply world_completed (Err (APIError "Rate limit reached.")).

(** The response the scripted services hand out. *)
Definition response_1 : Response :=
  {| resp_id := "resp_1"; resp_model_dump_json := fun _ => Ok "{}" |}.

(** ** Bookkeeping on states and traces *)

Lemma log_logs (ev : event) (st : state) : log ev st = logs [ev] st.
Proof. reflexivity. Qed.

Lemma logs_logs (evs1 evs2 : list event) (st : state) :
  logs evs2 (logs evs1 st) = logs (evs1 ++ evs2) st.
Proof. unfold logs; simpl. now rewrite app_assoc. Qed.

Lemma logs_nil (st : state) : logs [] st = st.
Proof. destruct st; unfold logs; simpl. now rewrite app_nil_r. Qed.

Lemma trace_logs (evs : list event) (st : state) :
  trace (logs evs st) = trace st ++ evs.
Proof. reflexivity. Qed.

Lemma global_logs (evs : list event) (st : state) :
  UPLOADED_FILE_ID (logs evs st) = UPLOADED_FILE_ID st.
Proof. reflexivity. Qed.

Lemma polls_app (evs1 evs2 : list event) :
  polls (evs1 ++ evs2) = polls evs1 + polls evs2.
Proof. unfold polls. now rewrite filter_app, length_app. Qed.

Lemma sleeps_app (evs1 evs2 : list event) :
  sleeps (evs1 ++ evs2) = sleeps evs1 + sleeps evs2.
Proof. unfold sleeps. now rewrite filter_app, length_app. Qed.

Lemma uploads_app (evs1 evs2 : list event) :
  uploads (evs1 ++ evs2) = uploads evs1 + uploads evs2.
Proof. unfold uploads. now rewrite filter_app, length_app. Qed.

Lemma deletions_app (evs1 evs2 : list event) :
  deletions (evs1 ++ evs2) = deletions evs1 ++ deletions evs2.
Proof. apply filter_app. Qed.

Lemma calls_app (evs1 evs2 : list event) :
  calls (evs1 ++ evs2) = calls evs1 ++ calls evs2.
Proof. apply filter_app. Qed.

Lemma attached_file_ids_app (evs1 evs2 : list event) :
  attached_file_ids (evs1 ++ evs2)
  = attached_file_ids evs1 ++ attached_file_ids evs2.
Proof.
  induction evs1 as [|ev evs1 IH]; simpl; [reflexivity|].
  destruct ev; simpl; now rewrite ?IH.
Qed.

Lemma quiet_polls (evs : list event) :
  Forall (fun ev => quiet ev = true) evs -> polls evs = 0.
Proof.
  induction 1 as [|ev evs Hev _ IH]; [reflexivity|].
  unfold polls in *; simpl. destruct ev; simpl in *; try discriminate; exact IH.
Qed.

Lemma quiet_sleeps (evs : list event) :
  Forall (fun ev => quiet ev = true) evs -> sleeps evs = 0.
Proof.
  induction 1 as [|ev evs Hev _ IH]; [reflexivity|].
  unfold sleeps in *; simpl. destruct ev; simpl in *; try discriminate; exact IH.
Qed.

Lemma quiet_uploads (evs : list event) :
  Forall (fun ev => quiet ev = true) evs -> uploads evs = 0.
Proof.
  induction 1 as [|ev evs Hev _ IH]; [reflexivity|].
  unfold uploads in *; simpl.
  destruct ev; simpl in *; try discriminate; exact IH.
Qed.

Lemma quiet_attached (evs : list event) :
  Forall (fun ev => quiet ev = true) evs -> attached_file_ids evs = [].
Proof.
  induction 1 as [|ev evs Hev _ IH]; [reflexivity|].
  destruct ev; simpl in *; try discriminate; exact IH.
Qed.

(** ** The guarded deletion loops of [cleanup] *)

Section GuardedLoop.

Variable announce : string -> string.
Variable deletion : string -> event.
Variable oracle : history -> string -> reply unit.
Variable complaint : string -> Exception -> string.
Hypothesis deletion_is_deletion : forall id, is_deletion (deletion id) = true.

(** One [try]/[except] round: the deletion is called, its failure is printed,
    and the round returns normally either way. *)
Lemma guarded_round (id : string) (st : state) :
  try_except
    (print (announce id) ;; call (deletion id) (fun h => oracle h id))
    (fun e => print (complaint id e)) st
  = (Return tt,
     logs (Print (announce id) :: deletion id ::
           match oracle (trace st ++ [Print (announce id)]) id with
           | Ok _ => []
           | Err e => [Print (complaint id e)]
           end) st).
Proof.
  unfold try_except, bind, print, call; simpl.
  destruct (oracle (trace st ++ [Print (announce id)]) id) as [[]|e];
    rewrite !log_logs, !logs_logs; reflexivity.
Qed.

(** A whole loop returns normally, having called the deletion of every id in
    the order of the list, and nothing else but [print]. *)
Lemma guarded_loop (ids : list string) (st : state) :
  exists evs,
    for_in ids (fun id =>
      try_except
        (print (announce id) ;; call (deletion id) (fun h => oracle h id))
        (fun e => print (complaint id e))) st
    = (Return tt, logs evs st)
    /\ deletions evs = map deletion ids
    /\ Forall (fun ev => quiet ev = true) evs.
Proof.
  revert st; induction ids as [|id ids IH]; intros st.
  - exists []. rewrite logs_nil. repeat split; constructor.
  - simpl for_in. unfold bind at 1. rewrite guarded_round.
    destruct (IH (logs (Print (announce id) :: deletion id ::
                match oracle (trace st ++ [Print (announce id)]) id with
                | Ok _ => []
                | Err e => [Print (complaint id e)]
                end) st)) as (evs & Hrun & Hdel & Hquiet).
    eexists. rewrite Hrun, logs_logs. split; [reflexivity|]. split.
    + rewrite deletions_app, Hdel. unfold deletions; simpl.
      rewrite deletion_is_deletion.
      destruct (oracle _ id); reflexivity.
    + apply Forall_app; split; [|exact Hquiet].
      constructor; [reflexivity|]. constructor.
      * unfold quiet. rewrite deletion_is_deletion. apply orb_true_r.
      * destruct (oracle _ id); repeat constructor.
Qed.

End GuardedLoop.

Section Proofs.

Variable w : World.

(** ** [cleanup], whole *)

(** The guarded loops run to their end, then the file deletion is called
    once; its reply decides how [cleanup] ends. *)
Lemma cleanup_runs (vector_store_ids response_ids : list string)
    (st : state) :
  exists evs,
    deletions evs
    = map VectorStoresDelete vector_store_ids
      ++ map ResponsesDelete response_ids
    /\ Forall (fun ev => quiet ev = true) evs
    /\ cleanup w vector_store_ids response_ids st
       = match w_files_delete w
                 (trace st ++ evs ++ [Print "Deleting uploaded file..."])
                 (UPLOADED_FILE_ID st) with
         | Ok _ =>
             (Return tt,
              logs (evs ++ [Print "Deleting uploaded file...";
                            FilesDelete (UPLOADED_FILE_ID st);
                            Print "Cleanup completed."]) st)
         | Err e =>
             (Raise e,
              logs (evs ++ [Print "Deleting uploaded file...";
                            FilesDelete (UPLOADED_FILE_ID st)]) st)
         end.
Proof.
  pose proof (guarded_loop
    (fun id => "Deleting vector store " ++ id ++ "...")%string
    VectorStoresDelete (w_vector_stores_delete w)
    (fun id e => "Error deleting vector store " ++ id ++ ": " ++ str e)%string
    (fun _ => eq_refl) vector_store_ids st) as (evs1 & Hrun1 & Hdel1 & Hq1).
  pose proof (guarded_loop
    (fun id => "Deleting response " ++ id ++ "...")%string
    ResponsesDelete (w_responses_delete w)
    (fun id e => "Error deleting response " ++ id ++ ": " ++ str e)%string
    (fun _ => eq_refl) response_ids (logs evs1 st)) as (evs2 & Hrun2 & Hdel2 & Hq2).
  cbv beta in Hrun1, Hrun2.
  exists (evs1 ++ evs2). split; [|split].
  - now rewrite deletions_app, Hdel1, Hdel2.
  - apply Forall_app; split; assumption.
  - unfold cleanup. unfold bind at 1. rewrite Hrun1.
    unfold bind at 1. rewrite Hrun2.
    unfold bind, print, get_UPLOADED_FILE_ID, call; simpl.
    rewrite <- !app_assoc.
    destruct (w_files_delete w _ _) as [[]|e];
      rewrite !log_logs, !logs_logs, <- ?app_assoc; reflexivity.
Qed.

(** [cleanup] always comes to an end. *)
Lemma cleanup_ends (vector_store_ids response_ids : list string)
    (st : state) :
  fst (cleanup w vector_store_ids response_ids st) <> OutOfFuel.
Proof.
  destruct (cleanup_runs vector_store_ids response_ids st)
    as (evs & _ & _ & Hrun).
  rewrite Hrun. destruct (w_files_delete w _ _); discriminate.
Qed.

(** ** One iteration of the polling loop *)

Section Iteration.

Variable vector_store : VectorStore.
Variable vector_store_file : VectorStoreFile.

(** The status check the loop issues, and what the service answers to it
    after history [h]. *)
Local Abbreviation check :=
  (VectorStoresFilesPoll (vsf_id vector_store_file) (vs_id vector_store)).
Local Abbreviation answer h :=
  (w_vector_stores_files_poll w h
     (vsf_id vector_store_file) (vs_id vector_store)).

Lemma poll_raises (fuel : nat) (st : state) (e : Exception) :
  answer (trace st) = Err e ->
  poll_loop w (S fuel) vector_store vector_store_file st
  = (Raise e, logs [check] st).
Proof.
  intros H. simpl. unfold bind at 1, call at 1.
  now rewrite H.
Qed.

Lemma poll_completed (fuel : nat) (st : state) (r : VectorStoreFile) :
  answer (trace st) = Ok r ->
  vsf_status r = "completed" ->
  poll_loop w (S fuel) vector_store vector_store_file st
  = (Return Break,
     logs [check; Print "File batch completed successfully."] st).
Proof.
  intros H Hs. simpl. unfold bind at 1, call at 1.
  rewrite H, Hs. simpl. unfold bind, print, ret.
  now rewrite !log_logs, logs_logs.
Qed.

Lemma poll_pending (fuel : nat) (st : state) (r : VectorStoreFile) :
  answer (trace st) = Ok r ->
  vsf_status r <> "completed" ->
  vsf_status r <> "failed" ->
  poll_loop w (S fuel) vector_store vector_store_file st
  = poll_loop w fuel vector_store vector_store_file
      (logs [check; Print ("File batch status: " ++ vsf_status r); Sleep 5]
            st).
Proof.
  intros H Hc Hf. simpl. unfold bind at 1, call at 1.
  rewrite H. apply String.eqb_neq in Hc, Hf. rewrite Hc, Hf.
  unfold bind, print, sleep.
  now rewrite !log_logs, !logs_logs.
Qed.

Lemma poll_failed_no_detail (fuel : nat) (st : state) (r : VectorStoreFile)
    (e : Exception) :
  answer (trace st) = Ok r ->
  vsf_status r = "failed" ->
  vsf_last_error r = Err e ->
  poll_loop w (S fuel) vector_store vector_store_file st
  = (Raise e, logs [check] st).
Proof.
  intros H Hs He. simpl. unfold bind at 1, call at 1.
  rewrite H, Hs. simpl. unfold bind at 1, invoke. now rewrite He.
Qed.

Lemma poll_failed (fuel : nat) (st : state) (r : VectorStoreFile)
    (detail : string) :
  answer (trace st) = Ok r ->
  vsf_status r = "failed" ->
  vsf_last_error r = Ok detail ->
  poll_loop w (S fuel) vector_store vector_store_file st
  = let (c, st') :=
      cleanup w [vs_id vector_store] []
        (logs [check; Print ("File batch failed. %s " ++ detail)] st) in
    (match c with
     | Return _ => Return ReturnNone
     | Raise e => Raise e
     | OutOfFuel => OutOfFuel
     end, st').
Proof.
  intros H Hs Hd. simpl poll_loop.
  unfold bind at 1, call at 1. rewrite H, Hs. simpl.
  unfold bind at 1, invoke. rewrite Hd.
  unfold bind at 1, print at 1. rewrite !log_logs, !logs_logs. simpl app.
  unfold bind at 1.
  destruct (cleanup w _ _ _) as [[[]|e|] st']; reflexivity.
Qed.

(** The failed branch in full: the detail is printed, [cleanup] runs on the
    one vector store, and the reply to the file deletion decides between the
    bare [return] and an exception. *)
Lemma poll_failed_runs (st : state) (r : VectorStoreFile)
    (detail : string) :
  answer (trace st) = Ok r ->
  vsf_status r = "failed" ->
  vsf_last_error r = Ok detail ->
  exists evs,
    deletions evs = [VectorStoresDelete (vs_id vector_store)]
    /\ Forall (fun ev => quiet ev = true) evs
    /\ forall fuel,
       poll_loop w (S fuel) vector_store vector_store_file st
       = match w_files_delete w
                 (trace st
                  ++ [check; Print ("File batch failed. %s " ++ detail)]
                  ++ evs ++ [Print "Deleting uploaded file..."])
                 (UPLOADED_FILE_ID st) with
         | Ok _ =>
             (Return ReturnNone,
              logs ([check; Print ("File batch failed. %s " ++ detail)]
                    ++ evs
                    ++ [Print "Deleting uploaded file...";
                        FilesDelete (UPLOADED_FILE_ID st);
                        Print "Cleanup completed."]) st)
         | Err e =>
             (Raise e,
              logs ([check; Print ("File batch failed. %s " ++ detail)]
                    ++ evs
                    ++ [Print "Deleting uploaded file...";
                        FilesDelete (UPLOADED_FILE_ID st)]) st)
         end.
Proof.
  intros H Hs Hd.
  destruct (cleanup_runs [vs_id vector_store] []
              (logs [check; Print ("File batch failed. %s " ++ detail)] st))
    as (evs & Hdel & Hq & Hrun).
  exists evs. split; [exact Hdel|]. split; [exact Hq|]. intros fuel.
  rewrite (poll_failed fuel st r detail H Hs Hd), Hrun.
  rewrite trace_logs, global_logs, <- !app_assoc.
  clear Hrun.
  destruct (w_files_delete w _ _) as [[]|e]; now rewrite logs_logs.
Qed.

(** A deletion of a file found among events whose deletions are known. *)
Lemma file_deletion_among (evs : list event) (known : list event)
    (id : string) :
  deletions evs = known ->
  In (FilesDelete id) evs -> In (FilesDelete id) known.
Proof.
  intros <- Hin. unfold deletions. apply filter_In. now split.
Qed.

(** An iteration either goes round again, after printing the status and
    sleeping, or leaves the loop with a result that no amount of fuel
    changes, after events that hold no further check and no delay. *)
Lemma iteration_cases (st : state) :
  (exists r,
      answer (trace st) = Ok r
      /\ vsf_status r <> "completed"
      /\ vsf_status r <> "failed"
      /\ forall fuel,
           poll_loop w (S fuel) vector_store vector_store_file st
           = poll_loop w fuel vector_store vector_store_file
               (logs [check;
                      Print ("File batch status: " ++ vsf_status r);
                      Sleep 5] st))
  \/ (exists res evs,
        res <> OutOfFuel
        /\ Forall (fun ev => quiet ev = true) evs
        /\ (forall id, In (FilesDelete id) evs -> id = UPLOADED_FILE_ID st)
        /\ forall fuel,
             poll_loop w (S fuel) vector_store vector_store_file st
             = (res, logs (check :: evs) st)).
Proof.
  destruct (answer (trace st)) as [r|e] eqn:H.
  - destruct (String.eqb_spec (vsf_status r) "completed") as [Hc|Hc].
    { right. exists (Return Break), [Print "File batch completed successfully."].
      split; [discriminate|]. split; [repeat constructor|]. split.
      - intros id [Hin|[]]; discriminate.
      - intros fuel. now apply poll_completed with r. }
    destruct (String.eqb_spec (vsf_status r) "failed") as [Hf|Hf].
    { right. destruct (vsf_last_error r) as [detail|e] eqn:Hd.
      - destruct (poll_failed_runs st r detail H Hf Hd)
          as (evs & Hdel & Hq & Hrun).
        destruct (w_files_delete w
                    (trace st
                     ++ [check; Print ("File batch failed. %s " ++ detail)]
                     ++ evs ++ [Print "Deleting uploaded file..."])
                    (UPLOADED_FILE_ID st)) as [[]|e] eqn:Hfd.
        + exists (Return ReturnNone). eexists. split; [discriminate|].
          split; [|split; [|exact Hrun]].
          * constructor; [reflexivity|]. apply Forall_app. split; [exact Hq|].
            repeat constructor.
          * intros id [Hin|Hin]; [discriminate|].
            apply in_app_or in Hin. destruct Hin as [Hin|Hin].
            -- apply (file_deletion_among _ _ _ Hdel) in Hin.
               destruct Hin as [Hin|[]]; discriminate.
            -- destruct Hin as [Hin|[Hin|[Hin|[]]]]; try discriminate.
               now injection Hin.
        + exists (Raise e). eexists. split; [discriminate|].
          split; [|split; [|exact Hrun]].
          * constructor; [reflexivity|]. apply Forall_app. split; [exact Hq|].
            repeat constructor.
          * intros id [Hin|Hin]; [discriminate|].
            apply in_app_or in Hin. destruct Hin as [Hin|Hin].
            -- apply (file_deletion_among _ _ _ Hdel) in Hin.
               destruct Hin as [Hin|[]]; discriminate.
            -- destruct Hin as [Hin|[Hin|[]]]; try discriminate.
               now injection Hin.
      - exists (Raise e), []. split; [discriminate|].
        split; [constructor|]. split; [intros id []|].
        intros fuel. now apply poll_failed_no_detail with r. }
    left. exists r. repeat split; try assumption.
    intros fuel. now apply poll_pending.
  - right. exists (Raise e), []. split; [discriminate|].
    split; [constructor|]. split; [intros id []|].
    intros fuel. now apply poll_raises.
Qed.

(** ** The loop and its fuel *)

(** Running out of fuel leaves the loop at its head: more fuel resumes it
    from the state that was reached. *)
Lemma poll_loop_resume (k : nat) :
  forall (st st2 : state),
    poll_loop w k vector_store vector_store_file st = (OutOfFuel, st2) ->
    forall fuel,
      poll_loop w (k + fuel) vector_store vector_store_file st
      = poll_loop w fuel vector_store vector_store_file st2.
Proof.
  induction k as [|k IH]; intros st st2 Hk fuel.
  - simpl in Hk. unfold out_of_fuel in Hk. now injection Hk as <-.
  - destruct (iteration_cases st)
      as [(r & _ & _ & _ & Hgo)|(res & evs & Hres & _ & _ & Hstop)].
    + rewrite Hgo in Hk. simpl Nat.add. rewrite Hgo. now apply IH.
    + rewrite Hstop in Hk. injection Hk as Hk _. now destruct Hres.
Qed.

(** A result reached with some fuel is reached with any larger amount. *)
Lemma poll_loop_stable (k : nat) :
  forall (st st' : state) (res : outcome loop_exit),
    poll_loop w k vector_store vector_store_file st = (res, st') ->
    res <> OutOfFuel ->
    forall fuel,
      poll_loop w (k + fuel) vector_store vector_store_file st = (res, st').
Proof.
  induction k as [|k IH]; intros st st' res Hk Hres fuel.
  - simpl in Hk. unfold out_of_fuel in Hk. injection Hk as <- _.
    now destruct Hres.
  - destruct (iteration_cases st)
      as [(r & _ & _ & _ & Hgo)|(res' & evs & _ & _ & _ & Hstop)].
    + rewrite Hgo in Hk. simpl Nat.add. rewrite Hgo. now apply IH.
    + simpl Nat.add. rewrite Hstop in *. exact Hk.
Qed.

(** What the loop leaves untouched: it uploads nothing, attaches nothing,
    keeps the global as it is, and deletes no file but the one the global
    names. *)
Lemma poll_loop_frame (fuel : nat) :
  forall (st : state),
  exists evs,
    snd (poll_loop w fuel vector_store vector_store_file st) = logs evs st
    /\ uploads evs = 0
    /\ attached_file_ids evs = []
    /\ forall id, In (FilesDelete id) evs -> id = UPLOADED_FILE_ID st.
Proof.
  induction fuel as [|fuel IH]; intros st.
  - exists []. simpl. rewrite logs_nil. repeat split. intros id [].
  - destruct (iteration_cases st)
      as [(r & _ & _ & _ & Hgo)|(res & evs & _ & Hq & Hfile & Hstop)].
    + rewrite Hgo.
      destruct (IH (logs [check;
                          Print ("File batch status: " ++ vsf_status r);
                          Sleep 5] st)) as (evs & Hrun & Hup & Hatt & Hfile).
      eexists. rewrite Hrun, logs_logs. split; [reflexivity|].
      rewrite uploads_app, attached_file_ids_app, Hup, Hatt.
      repeat split. intros id Hin. apply in_app_or in Hin.
      destruct Hin as [[Hin|[Hin|[Hin|[]]]]|Hin]; try discriminate.
      now apply Hfile.
    + exists (check :: evs). rewrite Hstop. split; [reflexivity|].
      change (check :: evs) with ([check] ++ evs).
      rewrite uploads_app, attached_file_ids_app,
        (quiet_uploads evs Hq), (quiet_attached evs Hq).
      repeat split. intros id [Hin|Hin]; [discriminate|]. now apply Hfile.
Qed.

End Iteration.

(** ** [upload_to_vector_store] around its loop *)

(** Once lines 34-71 have returned, the function is its loop followed by
    line 90. *)
Lemma upload_after_before_polling (fuel : nat) (path name : string)
    (st0 st : state) (vs : VectorStore) (vsf : VectorStoreFile) :
  before_polling w path name st0 = (Return (vs, vsf), st) ->
  upload_to_vector_store w fuel path name st0
  = let (x, st') := poll_loop w fuel vs vsf st in
    (match x with
     | Return Break => Return (Some vs)
     | Return ReturnNone => Return None
     | Raise e => Raise e
     | OutOfFuel => OutOfFuel
     end, st').
Proof.
  intros H. unfold upload_to_vector_store. unfold bind at 1. rewrite H.
  simpl fst; simpl snd. unfold bind.
  destruct (poll_loop w fuel vs vsf st) as [[[]|e|] st']; reflexivity.
Qed.

(** ** The claims about polling *)

(** Claim C4.  Whenever a status check answers "completed" -- at once or
    after any number [k] of inconclusive checks that left the loop in state
    [st2] -- [upload_to_vector_store] returns the vector store it created,
    and all it adds to the trace of [st2] is that check and one printed
    line: no further check and no delay, whatever fuel is left. *)
Theorem completed_poll_returns_store (path name : string)
    (st0 st st2 : state) (vs : VectorStore) (vsf r : VectorStoreFile)
    (k fuel : nat) :
  before_polling w path name st0 = (Return (vs, vsf), st) ->
  poll_loop w k vs vsf st = (OutOfFuel, st2) ->
  w_vector_stores_files_poll w (trace st2) (vsf_id vsf) (vs_id vs) = Ok r ->
  vsf_status r = "completed" ->
  upload_to_vector_store w (k + S fuel) path name st0
  = (Return (Some vs),
     logs [VectorStoresFilesPoll (vsf_id vsf) (vs_id vs);
           Print "File batch completed successfully."] st2).
Proof.
  intros Hbefore Hk Hr Hs.
  rewrite (upload_after_before_polling _ _ _ _ _ _ _ Hbefore).
  rewrite (poll_loop_resume vs vsf k st st2 Hk).
  now rewrite (poll_completed vs vsf fuel st2 r Hr Hs).
Qed.

(** Claim C1, where the code departs from it.  Line 83 calls
    [file_uploaded.last_error()] before line 84 calls [cleanup].  On a
    service whose status objects have no callable [last_error] -- each such
    call raises -- a check that answers "failed" makes the loop raise right
    after the check, and the loop never calls a deletion, however long it
    runs: no cleanup of the vector store takes place. *)
Theorem failed_check_never_reaches_cleanup (vs : VectorStore)
    (vsf : VectorStoreFile) :
  (forall h r,
      w_vector_stores_files_poll w h (vsf_id vsf) (vs_id vs) = Ok r ->
      exists e, vsf_last_error r = Err e) ->
  (forall st r,
      w_vector_stores_files_poll w (trace st) (vsf_id vsf) (vs_id vs) = Ok r ->
      vsf_status r = "failed" ->
      exists e,
        vsf_last_error r = Err e
        /\ forall fuel,
             poll_loop w (S fuel) vs vsf st
             = (Raise e,
                logs [VectorStoresFilesPoll (vsf_id vsf) (vs_id vs)] st))
  /\ forall fuel st,
       exists evs,
         snd (poll_loop w fuel vs vsf st) = logs evs st
         /\ deletions evs = [].
Proof.
  intros Hraises. split.
  - intros st r Hr Hs. destruct (Hraises _ _ Hr) as (e & He).
    exists e. split; [exact He|].
    intros fuel. now apply poll_failed_no_detail with r.
  - induction fuel as [|fuel IH]; intros st.
    + exists []. simpl. now rewrite logs_nil.
    + destruct (w_vector_stores_files_poll w (trace st)
                  (vsf_id vsf) (vs_id vs)) as [r|e] eqn:Hr.
      * destruct (String.eqb_spec (vsf_status r) "completed") as [Hc|Hc].
        { rewrite (poll_completed vs vsf fuel st r Hr Hc).
          eexists. split; reflexivity. }
        destruct (String.eqb_spec (vsf_status r) "failed") as [Hf|Hf].
        { destruct (Hraises _ _ Hr) as (e & He).
          rewrite (poll_failed_no_detail vs vsf fuel st r e Hr Hf He).
          eexists. split; reflexivity. }
        rewrite (poll_pending vs vsf fuel st r Hr Hc Hf).
        destruct (IH (logs [VectorStoresFilesPoll (vsf_id vsf) (vs_id vs);
                            Print ("File batch status: " ++ vsf_status r);
                            Sleep 5] st)) as (evs & Hrun & Hdel).
        eexists. rewrite Hrun, logs_logs. split; [reflexivity|].
        now rewrite deletions_app, Hdel.
      * rewrite (poll_raises vs vsf fuel st e Hr).
        eexists. split; reflexivity.
Qed.

(** Claim C6.  If every status check answers a status other than
    "completed" and "failed", the loop is never left: whatever the fuel, it
    is used up, and what has happened by then, printed lines apart, is a
    check followed by a sleep of exactly 5, once per unit of fuel.  So
    [upload_to_vector_store] does not come to an end either. *)
Theorem stuck_job_polls_forever (vs : VectorStore) (vsf : VectorStoreFile) :
  (forall h, exists r,
      w_vector_stores_files_poll w h (vsf_id vsf) (vs_id vs) = Ok r
      /\ vsf_status r <> "completed"
      /\ vsf_status r <> "failed") ->
  forall (fuel : nat) (st : state),
    (exists evs,
        poll_loop w fuel vs vsf st = (OutOfFuel, logs evs st)
        /\ calls evs
           = concat (repeat [VectorStoresFilesPoll (vsf_id vsf) (vs_id vs);
                             Sleep 5] fuel))
    /\ forall path name st0,
         before_polling w path name st0 = (Return (vs, vsf), st) ->
         fst (upload_to_vector_store w fuel path name st0) = OutOfFuel.
Proof.
  intros Hstuck.
  assert (forall fuel st, exists evs,
             poll_loop w fuel vs vsf st = (OutOfFuel, logs evs st)
             /\ calls evs
                = concat (repeat [VectorStoresFilesPoll (vsf_id vsf)
                                    (vs_id vs); Sleep 5] fuel)) as Hloop.
  { induction fuel as [|fuel IH]; intros st.
    - exists []. simpl. unfold out_of_fuel. now rewrite logs_nil.
    - destruct (Hstuck (trace st)) as (r & Hr & Hc & Hf).
      rewrite (poll_pending vs vsf fuel st r Hr Hc Hf).
      destruct (IH (logs [VectorStoresFilesPoll (vsf_id vsf) (vs_id vs);
                          Print ("File batch status: " ++ vsf_status r);
                          Sleep 5] st)) as (evs & Hrun & Hcalls).
      eexists. rewrite Hrun, logs_logs. split; [reflexivity|].
      rewrite calls_app, Hcalls. reflexivity. }
  intros fuel st. split; [apply Hloop|].
  intros path name st0 Hbefore.
  rewrite (upload_after_before_polling _ _ _ _ _ _ _ Hbefore).
  destruct (Hloop fuel st) as (evs & Hrun & _). now rewrite Hrun.
Qed.

(** Claim C7.  If the next three status checks answer "in_progress",
    "in_progress" and "completed", the loop makes exactly these three
    checks, sleeps exactly twice (5 each time) and is left by [break] at the
    third check, so that [upload_to_vector_store] returns the store. *)
Theorem three_checks_two_delays (vs : VectorStore) (vsf : VectorStoreFile)
    (st : state) :
  (forall h k, k < 3 -> polls h = polls (trace st) + k ->
     exists r,
       w_vector_stores_files_poll w h (vsf_id vsf) (vs_id vs) = Ok r
       /\ vsf_status r
          = nth k ["in_progress"; "in_progress"; "completed"] "") ->
  forall fuel : nat,
  exists evs,
    poll_loop w (3 + fuel) vs vsf st = (Return Break, logs evs st)
    /\ evs = [VectorStoresFilesPoll (vsf_id vsf) (vs_id vs);
              Print "File batch status: in_progress"; Sleep 5;
              VectorStoresFilesPoll (vsf_id vsf) (vs_id vs);
              Print "File batch status: in_progress"; Sleep 5;
              VectorStoresFilesPoll (vsf_id vsf) (vs_id vs);
              Print "File batch completed successfully."]
    /\ polls evs = 3
    /\ sleeps evs = 2
    /\ forall path name st0,
         before_polling w path name st0 = (Return (vs, vsf), st) ->
         upload_to_vector_store w (3 + fuel) path name st0
         = (Return (Some vs), logs evs st).
Proof.
  intros Hscript fuel.
  assert (poll_loop w (3 + fuel) vs vsf st
          = (Return Break,
             logs [VectorStoresFilesPoll (vsf_id vsf) (vs_id vs);
                   Print "File batch status: in_progress"; Sleep 5;
                   VectorStoresFilesPoll (vsf_id vsf) (vs_id vs);
                   Print "File batch status: in_progress"; Sleep 5;
                   VectorStoresFilesPoll (vsf_id vsf) (vs_id vs);
                   Print "File batch completed successfully."] st)) as Hrun.
  { destruct (Hscript (trace st) 0) as (r0 & Hr0 & Hs0); [lia..|].
    simpl in Hs0. change (3 + fuel) with (S (S (S fuel))).
    rewrite (poll_pending vs vsf _ st r0 Hr0)
      by (rewrite Hs0; discriminate).
    rewrite Hs0.
    match goal with |- poll_loop _ _ _ _ ?s = _ =>
      destruct (Hscript (trace s) 1) as (r1 & Hr1 & Hs1);
        [lia | rewrite trace_logs, polls_app; reflexivity |] end.
    simpl in Hs1.
    rewrite (poll_pending vs vsf _ _ r1 Hr1)
      by (rewrite Hs1; discriminate).
    rewrite Hs1, logs_logs.
    match goal with |- poll_loop _ _ _ _ ?s = _ =>
      destruct (Hscript (trace s) 2) as (r2 & Hr2 & Hs2);
        [lia | rewrite trace_logs, polls_app; reflexivity |] end.
    simpl in Hs2.
    rewrite (poll_completed vs vsf _ _ r2 Hr2 Hs2), logs_logs.
    reflexivity. }
  eexists. split; [exact Hrun|]. split; [reflexivity|].
  split; [reflexivity|]. split; [reflexivity|].
  intros path name st0 Hbefore.
  rewrite (upload_after_before_polling _ _ _ _ _ _ _ Hbefore).
  now rewrite Hrun.
Qed.

(** Claim C9.  With one unit of fuel the loop is still running after a
    check exactly when the status is neither "completed" nor "failed"; for
    every such status the iteration prints the status, sleeps 5 and goes
    round again, so that with fuel left the next thing it does is another
    check; "cancelled" is such a status. *)
Theorem only_completed_and_failed_leave_the_loop
    (vs : VectorStore) (vsf r : VectorStoreFile) (st : state) :
  w_vector_stores_files_poll w (trace st) (vsf_id vsf) (vs_id vs) = Ok r ->
  (fst (poll_loop w 1 vs vsf st) = OutOfFuel
   <-> vsf_status r <> "completed" /\ vsf_status r <> "failed")
  /\ (vsf_status r <> "completed" -> vsf_status r <> "failed" ->
      forall fuel,
        poll_loop w (S fuel) vs vsf st
        = poll_loop w fuel vs vsf
            (logs [VectorStoresFilesPoll (vsf_id vsf) (vs_id vs);
                   Print ("File batch status: " ++ vsf_status r);
                   Sleep 5] st)
        /\ exists evs,
             snd (poll_loop w (S (S fuel)) vs vsf st)
             = logs ([VectorStoresFilesPoll (vsf_id vsf) (vs_id vs);
                      Print ("File batch status: " ++ vsf_status r);
                      Sleep 5;
                      VectorStoresFilesPoll (vsf_id vsf) (vs_id vs)]
                     ++ evs) st)
  /\ (vsf_status r = "cancelled" ->
      forall fuel, exists evs,
        snd (poll_loop w (S (S fuel)) vs vsf st)
        = logs ([VectorStoresFilesPoll (vsf_id vsf) (vs_id vs);
                 Print "File batch status: cancelled";
                 Sleep 5;
                 VectorStoresFilesPoll (vsf_id vsf) (vs_id vs)] ++ evs) st).
Proof.
  intros Hr.
  assert (vsf_status r <> "completed" -> vsf_status r <> "failed" ->
          forall fuel, exists evs,
            snd (poll_loop w (S (S fuel)) vs vsf st)
            = logs ([VectorStoresFilesPoll (vsf_id vsf) (vs_id vs);
                     Print ("File batch status: " ++ vsf_status r);
                     Sleep 5;
                     VectorStoresFilesPoll (vsf_id vsf) (vs_id vs)]
                    ++ evs) st) as Hnext.
  { intros Hc Hf fuel.
    rewrite (poll_pending vs vsf _ st r Hr Hc Hf).
    match goal with |- context [poll_loop w (S fuel) vs vsf ?s] =>
      destruct (iteration_cases vs vsf s)
        as [(r' & _ & _ & _ & Hgo)|(res & evs & _ & _ & _ & Hstop)] end.
    - rewrite Hgo.
      match goal with |- context [poll_loop w fuel vs vsf ?s] =>
        destruct (poll_loop_frame vs vsf fuel s) as (evs & Hrun & _) end.
      eexists. rewrite Hrun, !logs_logs. reflexivity.
    - rewrite Hstop. exists evs. simpl snd. now rewrite logs_logs. }
  split; [|split].
  - destruct (iteration_cases vs vsf st)
      as [(r' & Hr' & Hc & Hf & Hgo)|(res & evs & Hres & _ & _ & Hstop)].
    + rewrite Hr in Hr'. injection Hr' as <-.
      rewrite Hgo. simpl. tauto.
    + rewrite Hstop. simpl. split; [intros H; now destruct Hres|].
      intros [Hc Hf]. exfalso.
      pose proof (poll_pending vs vsf 0 st r Hr Hc Hf) as Hgo.
      rewrite Hstop in Hgo. simpl in Hgo. unfold out_of_fuel in Hgo.
      injection Hgo as Hgo _. now destruct Hres.
  - intros Hc Hf fuel. split; [now apply poll_pending|now apply Hnext].
  - intros Hs fuel.
    destruct (Hnext ltac:(rewrite Hs; discriminate)
                    ltac:(rewrite Hs; discriminate) fuel) as (evs & Hrun).
    exists evs. now rewrite Hrun, Hs.
Qed.

(** ** The claims about [cleanup] *)

(** Claim C10.  Whatever the service answers, the deletion calls of one
    [cleanup] are those of the vector stores in the order given, then those
    of the responses in the order given, then one deletion of the uploaded
    file; with both lists empty that last call is the only one. *)
Theorem cleanup_deletes_in_fixed_order
    (vector_store_ids response_ids : list string) (st : state) :
  (exists evs,
      snd (cleanup w vector_store_ids response_ids st) = logs evs st
      /\ deletions evs
         = map VectorStoresDelete vector_store_ids
           ++ map ResponsesDelete response_ids
           ++ [FilesDelete (UPLOADED_FILE_ID st)])
  /\ (exists evs,
        snd (cleanup w [] [] st) = logs evs st
        /\ deletions evs = [FilesDelete (UPLOADED_FILE_ID st)]).
Proof.
  assert (forall vs rs, exists evs,
             snd (cleanup w vs rs st) = logs evs st
             /\ deletions evs
                = map VectorStoresDelete vs ++ map ResponsesDelete rs
                  ++ [FilesDelete (UPLOADED_FILE_ID st)]) as Hall.
  { intros vs rs.
    destruct (cleanup_runs vs rs st) as (evs & Hdel & _ & Hrun).
    rewrite Hrun.
    destruct (w_files_delete w _ _) as [[]|e]; eexists;
      (split; [reflexivity|]);
      now rewrite deletions_app, Hdel, <- app_assoc. }
  split; [apply Hall|]. apply (Hall [] []).
Qed.

(** ** Lines 34-71, step by step *)

Lemma ensure_uploaded_known (path : string) (st : state) :
  UPLOADED_FILE_ID st <> "" ->
  ensure_uploaded w path st
  = (Return tt,
     logs [Print ("Using existing file ID: " ++ UPLOADED_FILE_ID st)] st).
Proof.
  intros Hknown. unfold ensure_uploaded, bind, get_UPLOADED_FILE_ID.
  destruct (UPLOADED_FILE_ID st) eqn:Hid; [now destruct Hknown|].
  simpl. unfold print. now rewrite log_logs.
Qed.

Lemma ensure_uploaded_fresh (path : string) (st : state) :
  UPLOADED_FILE_ID st = "" ->
  ensure_uploaded w path st
  = match w_open w (trace st) path with
    | Err e => (Raise e, logs [Open path "rb"] st)
    | Ok _ =>
        match w_files_create w (trace st ++ [Open path "rb"])
                path "assistants" with
        | Err e =>
            (Raise e,
             logs [Open path "rb"; FilesCreate path "assistants";
                   Close path] st)
        | Ok uploaded_file =>
            (Return tt,
             {| UPLOADED_FILE_ID := fo_id uploaded_file;
                trace := trace st
                         ++ [Open path "rb"; FilesCreate path "assistants";
                             Print ("File ID: " ++ fo_id uploaded_file);
                             Close path] |})
        end
    end.
Proof.
  intros Hfresh. unfold ensure_uploaded. unfold bind at 1.
  unfold get_UPLOADED_FILE_ID. rewrite Hfresh. simpl py_not. cbv iota.
  unfold with_open, bind, call, set_UPLOADED_FILE_ID, print. simpl.
  destruct (w_open w (trace st) path) as [[]|e]; [|reflexivity].
  destruct (w_files_create w _ _ _) as [f|e]; simpl;
    unfold log, logs; simpl; rewrite <- ?app_assoc; reflexivity.
Qed.

Lemma create_and_attach_runs (name : string) (st : state) :
  create_and_attach w name st
  = match w_vector_stores_create w (trace st) name with
    | Err e =>
        (Raise e, logs [VectorStoresCreate name "last_active_at" 7] st)
    | Ok vs =>
        let evs :=
          [VectorStoresCreate name "last_active_at" 7;
           Print ("Vector Store ID: " ++ vs_id vs);
           VectorStoresFilesCreate (vs_id vs) 100 20 (UPLOADED_FILE_ID st)
             [("source", "Contoso"); ("category", "Marketing")]] in
        match w_vector_stores_files_create w
                (trace st
                 ++ [VectorStoresCreate name "last_active_at" 7;
                     Print ("Vector Store ID: " ++ vs_id vs)])
                (vs_id vs) (UPLOADED_FILE_ID st) with
        | Err e => (Raise e, logs evs st)
        | Ok vsf => (Return (vs, vsf), logs evs st)
        end
    end.
Proof.
  unfold create_and_attach, bind, call, print, get_UPLOADED_FILE_ID, ret.
  destruct (w_vector_stores_create w (trace st) name) as [vs|e];
    [|reflexivity].
  simpl. rewrite <- !app_assoc. simpl.
  destruct (w_vector_stores_files_create w _ _ _) as [vsf|e];
    rewrite !log_logs, !logs_logs; reflexivity.
Qed.

(** Lines 47-90: nothing is uploaded, the global is kept, the attach (made
    if the vector store could be created) uses the global, and so does any
    file deletion. *)
Lemma after_ensure_uploaded (fuel : nat) (name : string) (st : state) :
  exists evs,
    snd ((created <- create_and_attach w name ;;
          exit <- poll_loop w fuel (fst created) (snd created) ;;
          match exit with
          | Break => ret (Some (fst created))
          | ReturnNone => ret None
          end) st) = logs evs st
    /\ uploads evs = 0
    /\ attached_file_ids evs
       = match w_vector_stores_create w (trace st) name with
         | Ok _ => [UPLOADED_FILE_ID st]
         | Err _ => []
         end
    /\ forall id, In (FilesDelete id) evs -> id = UPLOADED_FILE_ID st.
Proof.
  unfold bind at 1. rewrite create_and_attach_runs.
  destruct (w_vector_stores_create w (trace st) name) as [vs|e].
  - cbv zeta.
    destruct (w_vector_stores_files_create w _ _ _) as [vsf|e].
    + simpl fst; simpl snd. unfold bind at 1.
      match goal with |- context [poll_loop w fuel vs vsf ?s] =>
        destruct (poll_loop_frame vs vsf fuel s)
          as (evs & Hrun & Hup & Hatt & Hfile);
        destruct (poll_loop w fuel vs vsf s) as [[[]|e|] st'] end;
        simpl in Hrun; subst st'; simpl snd; rewrite logs_logs;
        eexists; (split; [reflexivity|]);
        rewrite uploads_app, attached_file_ids_app, Hup, Hatt;
        (split; [reflexivity|]); (split; [reflexivity|]);
        intros id Hin; apply in_app_or in Hin;
        destruct Hin as [[Hin|[Hin|[Hin|[]]]]|Hin]; try discriminate;
        now apply Hfile.
    + eexists. split; [reflexivity|]. repeat split.
      intros id [Hin|[Hin|[Hin|[]]]]; discriminate.
  - eexists. split; [reflexivity|]. repeat split.
    intros id [Hin|[]]; discriminate.
Qed.

Lemma bind_assoc {A B C : Type} (m : M A) (f : A -> M B) (g : B -> M C)
    (st : state) :
  bind (bind m f) g st = bind m (fun a => bind (f a) g) st.
Proof.
  unfold bind. destruct (m st) as [[a|e|] st']; reflexivity.
Qed.

(** [upload_to_vector_store] as lines 34-44 followed by lines 47-90. *)
Lemma upload_steps (fuel : nat) (path name : string) (st : state) :
  upload_to_vector_store w fuel path name st
  = match ensure_uploaded w path st with
    | (Return _, st1) =>
        (created <- create_and_attach w name ;;
         exit <- poll_loop w fuel (fst created) (snd created) ;;
         match exit with
         | Break => ret (Some (fst created))
         | ReturnNone => ret None
         end) st1
    | (Raise e, st1) => (Raise e, st1)
    | (OutOfFuel, st1) => (OutOfFuel, st1)
    end.
Proof.
  unfold upload_to_vector_store, before_polling.
  rewrite bind_assoc. reflexivity.
Qed.

(** ** The claim about the file id *)

(** Claim C8.  With a configured id, [upload_to_vector_store] makes no
    upload, leaves the global as it is and hands the configured id to the
    batch attach.  Without one, and the file being opened, it makes exactly
    one upload; the id that upload returns is then in the global when the
    function ends, is the one handed to the batch attach, and is the only
    file id a deletion is called for.  (The attach is made as soon as the
    vector store could be created.) *)
Theorem upload_reuses_known_id_or_uploads_once (fuel : nat)
    (path name : string) (st : state) :
  exists evs,
    trace (snd (upload_to_vector_store w fuel path name st))
    = trace st ++ evs
    /\ (UPLOADED_FILE_ID st <> "" ->
        uploads evs = 0
        /\ UPLOADED_FILE_ID (snd (upload_to_vector_store w fuel path name st))
           = UPLOADED_FILE_ID st
        /\ attached_file_ids evs
           = match w_vector_stores_create w
                     (trace st
                      ++ [Print ("Using existing file ID: "
                                 ++ UPLOADED_FILE_ID st)]) name with
             | Ok _ => [UPLOADED_FILE_ID st]
             | Err _ => []
             end)
    /\ (UPLOADED_FILE_ID st = "" ->
        w_open w (trace st) path = Ok tt ->
        uploads evs = 1
        /\ forall f,
             w_files_create w (trace st ++ [Open path "rb"])
               path "assistants" = Ok f ->
             UPLOADED_FILE_ID
               (snd (upload_to_vector_store w fuel path name st)) = fo_id f
             /\ attached_file_ids evs
                = match w_vector_stores_create w
                          (trace st
                           ++ [Open path "rb";
                               FilesCreate path "assistants";
                               Print ("File ID: " ++ fo_id f);
                               Close path]) name with
                  | Ok _ => [fo_id f]
                  | Err _ => []
                  end
             /\ forall id, In (FilesDelete id) evs -> id = fo_id f).
Proof.
  rewrite upload_steps.
  destruct (string_dec (UPLOADED_FILE_ID st) "") as [Hfresh|Hknown].
  - rewrite (ensure_uploaded_fresh path st Hfresh).
    destruct (w_open w (trace st) path) as [[]|e] eqn:Hopen.
    + destruct (w_files_create w _ _ _) as [f0|e] eqn:Hcreate.
      * match goal with |- context [bind _ _ ?s] =>
          destruct (after_ensure_uploaded fuel name s)
            as (evs & Hrun & Hup & Hatt & Hfile) end.
        rewrite Hrun. cbn [trace UPLOADED_FILE_ID] in Hatt, Hfile.
        exists ([Open path "rb"; FilesCreate path "assistants";
                 Print ("File ID: " ++ fo_id f0); Close path] ++ evs).
        split; [simpl; now rewrite <- app_assoc|].
        split; [intros H; now destruct H|]. intros _ _.
        split; [now rewrite uploads_app, Hup|].
        intros f Hf. injection Hf as <-.
        split; [reflexivity|].
        split; [now rewrite attached_file_ids_app, Hatt|].
        intros id Hin. apply in_app_or in Hin.
        destruct Hin as [[Hin|[Hin|[Hin|[Hin|[]]]]]|Hin];
          try discriminate. now apply Hfile.
      * exists [Open path "rb"; FilesCreate path "assistants"; Close path].
        split; [reflexivity|].
        split; [intros H; now destruct H|]. intros _ _.
        split; [reflexivity|]. intros f Hf. discriminate.
    + exists [Open path "rb"]. split; [reflexivity|].
      split; [intros H; now destruct H|]. intros _ H. discriminate.
  - rewrite (ensure_uploaded_known path st Hknown).
    match goal with |- context [bind _ _ ?s] =>
      destruct (after_ensure_uploaded fuel name s)
        as (evs & Hrun & Hup & Hatt & Hfile) end.
    rewrite Hrun. cbn [trace UPLOADED_FILE_ID logs] in Hatt.
    exists ([Print ("Using existing file ID: " ++ UPLOADED_FILE_ID st)]
            ++ evs).
    split; [simpl; now rewrite <- app_assoc|].
    split; [|intros H; now destruct Hknown]. intros _.
    split; [now rewrite uploads_app, Hup|].
    split; [reflexivity|].
    now rewrite attached_file_ids_app, Hatt.
Qed.

(** ** [main] after a failure *)

(** Whatever [upload_to_vector_store] raises is caught and printed, and then
    line 162 reads [vector_store], which was never assigned. *)
Lemma main_after_failed_upload (model : option string) (fuel : nat)
    (st st1 : state) (e : Exception) :
  upload_to_vector_store w fuel "./Contoso_Brochure.pdf" "Travel Brochure" st
  = (Raise e, st1) ->
  main w model fuel st
  = (Raise (UnboundLocalError
              "cannot access local variable 'vector_store' where it is not associated with a value"),
     logs [Print ("An error occurred: " ++ str e)] st1).
Proof.
  intros H. unfold main, main_try. rewrite H. reflexivity.
Qed.

(** When the job has failed and [upload_to_vector_store] has returned
    [None], line 140 raises, which is caught and printed, and line 162
    raises the same way outside the [try]. *)
Lemma main_after_failed_job (model : option string) (fuel : nat)
    (st st1 : state) :
  upload_to_vector_store w fuel "./Contoso_Brochure.pdf" "Travel Brochure" st
  = (Return None, st1) ->
  main w model fuel st
  = (Raise (AttributeError "'NoneType' object has no attribute 'id'"),
     logs [Print "An error occurred: 'NoneType' object has no attribute 'id'"]
          st1).
Proof.
  intros H. unfold main, main_try. rewrite H. reflexivity.
Qed.

End Proofs.

(** ** The claims at work on scripted services *)

(** C1 at work on a job that fails at its first check, and whose status
    object has no callable [last_error], as run for two iterations. *)
Lemma failed_check_never_reaches_cleanup_witness :
  (exists e,
      vsf_last_error
        (checked "file_1" "failed"
           (Err (APIError "'LastError' object is not callable"))) = Err e
      /\ forall fuel,
           poll_loop world_no_detail (S fuel) store_1
             (attached "file_1"
                (Err (APIError "'LastError' object is not callable")))
             (snd (before_polling world_no_detail brochure travel fresh))
           = (Raise e,
              logs [VectorStoresFilesPoll "file_1" "vs_1"]
                (snd (before_polling world_no_detail brochure travel fresh))))
  /\ exists evs,
       snd (poll_loop world_no_detail 2 store_1
              (attached "file_1"
                 (Err (APIError "'LastError' object is not callable")))
              (snd (before_polling world_no_detail brochure travel fresh)))
       = logs evs (snd (before_polling world_no_detail brochure travel fresh))
       /\ deletions evs = [].
Proof.
  assert (forall h r,
             w_vector_stores_files_poll world_no_detail h "file_1" "vs_1"
             = Ok r ->
             exists e, vsf_last_error r = Err e) as Hraises.
  { intros h r Hr. injection Hr as <-. eexists. reflexivity. }
  destruct (failed_check_never_reaches_cleanup world_no_detail store_1
              (attached "file_1"
                 (Err (APIError "'LastError' object is not callable")))
              Hraises) as [Hfailed Hnone].
  split.
  - exact (Hfailed
             (snd (before_polling world_no_detail brochure travel fresh))
             (checked "file_1" "failed"
                (Err (APIError "'LastError' object is not callable")))
             eq_refl eq_refl).
  - exact (Hnone 2
             (snd (before_polling world_no_detail brochure travel fresh))).
Defined.

(** Claim C5, where the code departs from it.  The job fails at its first
    check and the status object has no callable [last_error]:
    [upload_to_vector_store] raises at line 83, its last event being the
    check -- no detail is printed, no deletion is called, and it does not
    return.  [main] prints that exception and then raises on line 162. *)
Theorem failed_job_raises_before_cleanup :
  upload_to_vector_store world_no_detail 1 brochure travel fresh
  = (Raise (APIError "'LastError' object is not callable"),
     {| UPLOADED_FILE_ID := "file_1";
        trace :=
          [Open brochure "rb"; FilesCreate brochure "assistants";
           Print "File ID: file_1"; Close brochure;
           VectorStoresCreate travel "last_active_at" 7;
           Print "Vector Store ID: vs_1";
           VectorStoresFilesCreate "vs_1" 100 20 "file_1"
             [("source", "Contoso"); ("category", "Marketing")];
           VectorStoresFilesPoll "file_1" "vs_1"] |})
  /\ main world_no_detail None 1 fresh
     = (Raise (UnboundLocalError
                 "cannot access local variable 'vector_store' where it is not associated with a value"),
        {| UPLOADED_FILE_ID := "file_1";
           trace :=
             [Open brochure "rb"; FilesCreate brochure "assistants";
              Print "File ID: file_1"; Close brochure;
              VectorStoresCreate travel "last_active_at" 7;
              Print "Vector Store ID: vs_1";
              VectorStoresFilesCreate "vs_1" 100 20 "file_1"
                [("source", "Contoso"); ("category", "Marketing")];
              VectorStoresFilesPoll "file_1" "vs_1";
              Print "An error occurred: 'LastError' object is not callable"]
        |}).
Proof. split; reflexivity. Qed.

(** Claim C2, where the code departs from it.  The file cannot be deleted:
    the two guarded deletions are made, the file deletion is called, and
    what it raises leaves [cleanup], "Cleanup completed." unprinted. *)
Theorem file_deletion_failure_escapes_cleanup :
  cleanup world_file_gone ["vs_1"] ["resp_1"] configured
  = (Raise (APIError "No such File object: file_1"),
     {| UPLOADED_FILE_ID := "file_0";
        trace :=
          [Print "Deleting vector store vs_1...";
           VectorStoresDelete "vs_1";
           Print "Deleting response resp_1...";
           ResponsesDelete "resp_1";
           Print "Deleting uploaded file...";
           FilesDelete "file_0"] |}).
Proof. reflexivity. Qed.

(** Claim C3, where the code departs from it.  The vector store cannot be
    created: [main] catches and prints that failure, and then raises on
    line 162, where [vector_store] has no value. *)
Theorem main_crashes_after_caught_failure :
  main world_no_store None 1 fresh
  = (Raise (UnboundLocalError
              "cannot access local variable 'vector_store' where it is not associated with a value"),
     {| UPLOADED_FILE_ID := "file_1";
        trace :=
          [Open brochure "rb"; FilesCreate brochure "assistants";
           Print "File ID: file_1"; Close brochure;
           VectorStoresCreate travel "last_active_at" 7;
           Print "An error occurred: Connection error."] |}).
Proof. reflexivity. Qed.

(** C4 at work: the job completes at its third check, after two
    inconclusive ones. *)
Lemma completed_poll_returns_store_witness :
  upload_to_vector_store world_three_checks (2 + 1) brochure travel fresh
  = (Return (Some store_1),
     logs [VectorStoresFilesPoll "file_1" "vs_1";
           Print "File batch completed successfully."]
       (snd (poll_loop world_three_checks 2 store_1
               (attached "file_1" (Ok ""))
               (snd (before_polling world_three_checks brochure travel
                       fresh))))).
Proof.
  exact (completed_poll_returns_store world_three_checks brochure travel
           fresh
           (snd (before_polling world_three_checks brochure travel fresh))
           (snd (poll_loop world_three_checks 2 store_1
                   (attached "file_1" (Ok ""))
                   (snd (before_polling world_three_checks brochure travel
                           fresh))))
           store_1 (attached "file_1" (Ok ""))
           (checked "file_1" "completed" (Ok "")) 2 0
           eq_refl eq_refl eq_refl eq_refl).
Defined.

(** C6 at work: a job that stays "in_progress", given four units of fuel. *)
Lemma stuck_job_polls_forever_witness :
  (exists evs,
      poll_loop world_stuck 4 store_1 (attached "file_1" (Ok ""))
        (snd (before_polling world_stuck brochure travel fresh))
      = (OutOfFuel,
         logs evs (snd (before_polling world_stuck brochure travel fresh)))
      /\ calls evs
         = concat (repeat [VectorStoresFilesPoll "file_1" "vs_1"; Sleep 5] 4))
  /\ fst (upload_to_vector_store world_stuck 4 brochure travel fresh)
     = OutOfFuel.
Proof.
  assert (forall h, exists r,
             w_vector_stores_files_poll world_stuck h "file_1" "vs_1" = Ok r
             /\ vsf_status r <> "completed"%string
             /\ vsf_status r <> "failed"%string) as Hstuck.
  { intros h. eexists. split; [reflexivity|]. split; discriminate. }
  destruct (stuck_job_polls_forever world_stuck store_1
              (attached "file_1" (Ok "")) Hstuck
              4 (snd (before_polling world_stuck brochure travel fresh)))
    as [Hloop Hupload].
  split; [exact Hloop|]. exact (Hupload brochure travel fresh eq_refl).
Defined.

(** C7 at work on the scripted job of the scenario. *)
Lemma three_checks_two_delays_witness :
  exists evs,
    poll_loop world_three_checks (3 + 0) store_1 (attached "file_1" (Ok ""))
      (snd (before_polling world_three_checks brochure travel fresh))
    = (Return Break,
       logs evs
         (snd (before_polling world_three_checks brochure travel fresh)))
    /\ polls evs = 3
    /\ sleeps evs = 2
    /\ upload_to_vector_store world_three_checks (3 + 0) brochure travel fresh
       = (Return (Some store_1),
          logs evs
            (snd (before_polling world_three_checks brochure travel fresh))).
Proof.
  assert (forall h k, k < 3 ->
            polls h
            = polls (trace (snd (before_polling world_three_checks brochure
                                   travel fresh))) + k ->
            exists r,
              w_vector_stores_files_poll world_three_checks h "file_1" "vs_1"
              = Ok r
              /\ vsf_status r
                 = nth k ["in_progress"; "in_progress"; "completed"]
                     ""%string) as Hscript.
  { intros h k Hk Hp. eexists. split; [reflexivity|].
    simpl vsf_status. rewrite Hp.
    destruct k as [|[|[|k]]]; [reflexivity..|lia]. }
  destruct (three_checks_two_delays world_three_checks store_1
              (attached "file_1" (Ok ""))
              (snd (before_polling world_three_checks brochure travel fresh))
              Hscript 0)
    as (evs & Hrun & _ & Hpolls & Hsleeps & Hupload).
  exists evs. split; [exact Hrun|]. split; [exact Hpolls|].
  split; [exact Hsleeps|]. exact (Hupload brochure travel fresh eq_refl).
Defined.

(** C8 at work, without and with a configured file id. *)
Lemma upload_reuses_known_id_or_uploads_once_witness :
  UPLOADED_FILE_ID
    (snd (upload_to_vector_store world_completed 1 brochure travel fresh))
  = "file_1"
  /\ UPLOADED_FILE_ID
       (snd (upload_to_vector_store world_completed 1 brochure travel
               configured))
     = "file_0".
Proof.
  split.
  - destruct (upload_reuses_known_id_or_uploads_once world_completed 1
                brochure travel fresh) as (evs & _ & _ & Hfresh).
    destruct (Hfresh eq_refl eq_refl) as (_ & Hf).
    destruct (Hf {| fo_id := "file_1" |} eq_refl) as (Hglobal & _).
    exact Hglobal.
  - destruct (upload_reuses_known_id_or_uploads_once world_completed 1
                brochure travel configured) as (evs & _ & Hknown & _).
    destruct (Hknown ltac:(discriminate)) as (_ & Hglobal & _).
    exact Hglobal.
Defined.

(** C9 at work: a job the server reports as "cancelled". *)
Lemma only_completed_and_failed_leave_the_loop_witness :
  exists evs,
    snd (poll_loop world_cancelled 2 store_1
           (attached "file_1" (Ok ""))
           (snd (before_polling world_cancelled brochure travel fresh)))
    = logs ([VectorStoresFilesPoll "file_1" "vs_1";
             Print "File batch status: cancelled";
             Sleep 5;
             VectorStoresFilesPoll "file_1" "vs_1"] ++ evs)
        (snd (before_polling world_cancelled brochure travel fresh)).
Proof.
  destruct (only_completed_and_failed_leave_the_loop world_cancelled store_1
              (attached "file_1" (Ok ""))
              (checked "file_1" "cancelled" (Ok ""))
              (snd (before_polling world_cancelled brochure travel fresh))
              eq_refl) as (_ & _ & Hcancelled).
  exact (Hcancelled eq_refl 0).
Defined.

(** * More of the code

    What follows is read off the three functions themselves: what the loop
    keeps invariant, what [upload_to_vector_store] and [main] do when a call
    fails, and how [cleanup] composes. *)

Section Further.

Variable w : World.

(** ** The polling loop, lines 74-88 *)

(** An iteration that leaves the loop, by outcome: the deletions it called
    are none after [break] or an early exception, and the vector store then
    the file in the failed branch. *)
Lemma iteration_outcomes (vs : VectorStore) (vsf : VectorStoreFile)
    (st : state) :
  (exists r,
      w_vector_stores_files_poll w (trace st) (vsf_id vsf) (vs_id vs) = Ok r
      /\ vsf_status r <> "completed"
      /\ vsf_status r <> "failed"
      /\ forall fuel,
           poll_loop w (S fuel) vs vsf st
           = poll_loop w fuel vs vsf
               (logs [VectorStoresFilesPoll (vsf_id vsf) (vs_id vs);
                      Print ("File batch status: " ++ vsf_status r);
                      Sleep 5] st))
  \/ (exists res evs,
        (forall fuel,
            poll_loop w (S fuel) vs vsf st
            = (res,
               logs (VectorStoresFilesPoll (vsf_id vsf) (vs_id vs) :: evs)
                 st))
        /\ Forall (fun ev => quiet ev = true) evs
        /\ match res with
           | Return Break => deletions evs = []
           | Return ReturnNone =>
               deletions evs
               = [VectorStoresDelete (vs_id vs);
                  FilesDelete (UPLOADED_FILE_ID st)]
           | Raise _ =>
               deletions evs = []
               \/ deletions evs
                  = [VectorStoresDelete (vs_id vs);
                     FilesDelete (UPLOADED_FILE_ID st)]
           | OutOfFuel => False
           end).
Proof.
  destruct (w_vector_stores_files_poll w (trace st) (vsf_id vsf) (vs_id vs))
    as [r|e] eqn:H.
  - destruct (String.eqb_spec (vsf_status r) "completed") as [Hc|Hc].
    { right.
      exists (Return Break), [Print "File batch completed successfully."].
      split; [intros fuel; now apply poll_completed with r|].
      split; [repeat constructor|reflexivity]. }
    destruct (String.eqb_spec (vsf_status r) "failed") as [Hf|Hf].
    { right. destruct (vsf_last_error r) as [detail|e] eqn:Hd.
      - destruct (poll_failed_runs w vs vsf st r detail H Hf Hd)
          as (evs & Hdel & Hq & Hrun).
        destruct (w_files_delete w
                    (trace st
                     ++ [VectorStoresFilesPoll (vsf_id vsf) (vs_id vs);
                         Print ("File batch failed. %s " ++ detail)]
                     ++ evs ++ [Print "Deleting uploaded file..."])
                    (UPLOADED_FILE_ID st)) as [[]|e] eqn:Hfd.
        + exists (Return ReturnNone). eexists. split; [exact Hrun|]. split.
          * constructor; [reflexivity|]. apply Forall_app. split; [exact Hq|].
            repeat constructor.
          * change (Print ("File batch failed. %s " ++ detail) :: ?l)
              with ([Print ("File batch failed. %s " ++ detail)] ++ l).
            now rewrite !deletions_app, Hdel.
        + exists (Raise e). eexists. split; [exact Hrun|]. split.
          * constructor; [reflexivity|]. apply Forall_app. split; [exact Hq|].
            repeat constructor.
          * right.
            change (Print ("File batch failed. %s " ++ detail) :: ?l)
              with ([Print ("File batch failed. %s " ++ detail)] ++ l).
            now rewrite !deletions_app, Hdel.
      - exists (Raise e), [].
        split; [intros fuel; now apply poll_failed_no_detail with r|].
        split; [constructor|now left]. }
    left. exists r. repeat split; try assumption.
    intros fuel. now apply poll_pending.
  - right. exists (Raise e), [].
    split; [intros fuel; now apply poll_raises|].
    split; [constructor|now left].
Qed.

Lemma quiet_no_sleep (evs : list event) (seconds : Z) :
  Forall (fun ev => quiet ev = true) evs -> ~ In (Sleep seconds) evs.
Proof.
  intros Hq Hin. rewrite Forall_forall in Hq. apply Hq in Hin. discriminate.
Qed.

(** The loop as a whole, by outcome. *)
Lemma poll_loop_summary (vs : VectorStore) (vsf : VectorStoreFile)
    (fuel : nat) :
  forall st : state,
  exists res evs,
    poll_loop w fuel vs vsf st = (res, logs evs st)
    /\ (forall seconds, In (Sleep seconds) evs -> seconds = 5%Z)
    /\ polls evs <= fuel
    /\ match res with
       | OutOfFuel =>
           polls evs = fuel /\ sleeps evs = fuel /\ deletions evs = []
       | Return Break =>
           polls evs = sleeps evs + 1 /\ deletions evs = []
       | Return ReturnNone =>
           polls evs = sleeps evs + 1
           /\ deletions evs
              = [VectorStoresDelete (vs_id vs);
                 FilesDelete (UPLOADED_FILE_ID st)]
       | Raise _ =>
           polls evs = sleeps evs + 1
           /\ (deletions evs = []
               \/ deletions evs
                  = [VectorStoresDelete (vs_id vs);
                     FilesDelete (UPLOADED_FILE_ID st)])
       end.
Proof.
  induction fuel as [|fuel IH]; intros st.
  - exists OutOfFuel, []. simpl. unfold out_of_fuel. rewrite logs_nil.
    split; [reflexivity|]. split; [intros seconds []|].
    split; [unfold polls; simpl; lia|]. repeat split.
  - destruct (iteration_outcomes vs vsf st)
      as [(r & _ & _ & _ & Hgo)|(res & evs & Hstop & Hq & Hdel)].
    + rewrite Hgo.
      destruct (IH (logs [VectorStoresFilesPoll (vsf_id vsf) (vs_id vs);
                          Print ("File batch status: " ++ vsf_status r);
                          Sleep 5] st))
        as (res & evs & Hrun & Hfive & Hle & Hout).
      rewrite global_logs in Hout.
      exists res. eexists. rewrite Hrun, logs_logs.
      split; [reflexivity|]. split; [|split].
      * intros seconds Hin. apply in_app_or in Hin.
        destruct Hin as [[Hin|[Hin|[Hin|[]]]]|Hin]; try discriminate.
        -- now injection Hin as <-.
        -- now apply Hfive.
      * rewrite polls_app.
        change (polls [VectorStoresFilesPoll (vsf_id vsf) (vs_id vs);
                       Print ("File batch status: " ++ vsf_status r);
                       Sleep 5]) with 1. lia.
      * rewrite polls_app, sleeps_app, deletions_app.
        change (polls [VectorStoresFilesPoll (vsf_id vsf) (vs_id vs);
                       Print ("File batch status: " ++ vsf_status r);
                       Sleep 5]) with 1.
        change (sleeps [VectorStoresFilesPoll (vsf_id vsf) (vs_id vs);
                        Print ("File batch status: " ++ vsf_status r);
                        Sleep 5]) with 1.
        change (deletions [VectorStoresFilesPoll (vsf_id vsf) (vs_id vs);
                           Print ("File batch status: " ++ vsf_status r);
                           Sleep 5]) with (@nil event).
        destruct res as [[]|e|]; simpl app; intuition lia.
    + exists res, (VectorStoresFilesPoll (vsf_id vsf) (vs_id vs) :: evs).
      rewrite Hstop. split; [reflexivity|].
      assert (polls (VectorStoresFilesPoll (vsf_id vsf) (vs_id vs) :: evs)
              = 1) as Hp
        by (change (polls (?c :: evs)) with (S (polls evs));
            now rewrite (quiet_polls evs Hq)).
      assert (sleeps (VectorStoresFilesPoll (vsf_id vsf) (vs_id vs) :: evs)
              = 0) as Hs
        by (change (sleeps (?c :: evs)) with (sleeps evs);
            exact (quiet_sleeps evs Hq)).
      assert (deletions
                (VectorStoresFilesPoll (vsf_id vsf) (vs_id vs) :: evs)
              = deletions evs) as Hd by reflexivity.
      rewrite Hp, Hs, Hd. split; [|split; [lia|]].
      * intros seconds [Hin|Hin]; [discriminate|].
        now destruct (quiet_no_sleep evs seconds Hq).
      * destruct res as [[]|e|]; intuition.
Qed.

(** Extra X1.  Whatever the service answers and however long the loop runs,
    every delay lasts exactly 5 and follows a check: when the loop has
    ended, by [break], [return] or an exception, it has made one check more
    than it has slept; while it is still running, as many; and never more
    checks than iterations. *)
Theorem poll_loop_checks_and_delays (vs : VectorStore)
    (vsf : VectorStoreFile) (fuel : nat) (st : state) :
  exists evs,
    snd (poll_loop w fuel vs vsf st) = logs evs st
    /\ (forall seconds, In (Sleep seconds) evs -> seconds = 5%Z)
    /\ polls evs <= fuel
    /\ match fst (poll_loop w fuel vs vsf st) with
       | OutOfFuel => polls evs = fuel /\ sleeps evs = fuel
       | _ => polls evs = sleeps evs + 1
       end.
Proof.
  destruct (poll_loop_summary vs vsf fuel st)
    as (res & evs & Hrun & Hfive & Hle & Hout).
  exists evs. rewrite Hrun. simpl fst; simpl snd.
  split; [reflexivity|]. split; [exact Hfive|]. split; [exact Hle|].
  destruct res as [[]|e|]; tauto.
Qed.

(** ** [upload_to_vector_store], lines 31-90 *)

(** Lines 34-71 call no deletion, no status check and no delay. *)
Lemma before_polling_frame (path name : string) (st : state) :
  exists evs,
    trace (snd (before_polling w path name st)) = trace st ++ evs
    /\ deletions evs = []
    /\ polls evs = 0
    /\ sleeps evs = 0.
Proof.
  unfold before_polling, bind.
  destruct (string_dec (UPLOADED_FILE_ID st) "") as [Hfresh|Hknown].
  - rewrite (ensure_uploaded_fresh w path st Hfresh).
    destruct (w_open w (trace st) path) as [[]|e].
    + destruct (w_files_create w _ _ _) as [f|e].
      * rewrite create_and_attach_runs. cbn [trace UPLOADED_FILE_ID].
        destruct (w_vector_stores_create w _ _) as [vs|e].
        -- cbv zeta. destruct (w_vector_stores_files_create w _ _ _);
             eexists; (split;
               [cbn [snd trace logs]; rewrite <- app_assoc; reflexivity|]);
             repeat split.
        -- eexists. split;
             [cbn [snd trace logs]; rewrite <- app_assoc; reflexivity|].
           repeat split.
      * eexists. split; [reflexivity|]. repeat split.
    + eexists. split; [reflexivity|]. repeat split.
  - rewrite (ensure_uploaded_known w path st Hknown).
    rewrite create_and_attach_runs. cbn [trace UPLOADED_FILE_ID logs].
    destruct (w_vector_stores_create w _ _) as [vs|e].
    + cbv zeta. destruct (w_vector_stores_files_create w _ _ _);
        eexists; (split;
          [cbn [snd trace logs]; rewrite <- app_assoc; reflexivity|]);
        repeat split.
    + eexists. split;
        [cbn [snd trace logs]; rewrite <- app_assoc; reflexivity|].
      repeat split.
Qed.

(** [upload_to_vector_store] as a whole, by outcome. *)
Lemma upload_outcomes (fuel : nat) (path name : string) (st : state) :
  exists res st' evs,
    upload_to_vector_store w fuel path name st = (res, st')
    /\ trace st' = trace st ++ evs
    /\ match res with
       | Return (Some _) | OutOfFuel => deletions evs = []
       | Return None =>
           exists id,
             deletions evs
             = [VectorStoresDelete id; FilesDelete (UPLOADED_FILE_ID st')]
       | Raise _ =>
           deletions evs = []
           \/ exists id,
                deletions evs
                = [VectorStoresDelete id; FilesDelete (UPLOADED_FILE_ID st')]
       end.
Proof.
  unfold upload_to_vector_store. unfold bind at 1.
  destruct (before_polling_frame path name st) as (evs0 & Htr & Hdel0 & _).
  destruct (before_polling w path name st) as [[[vs vsf]|e|] st1];
    simpl in Htr.
  - simpl fst; simpl snd. unfold bind at 1.
    destruct (poll_loop_summary vs vsf fuel st1)
      as (res & evs & Hrun & _ & _ & Hout).
    rewrite Hrun.
    assert (trace (logs evs st1) = trace st ++ evs0 ++ evs) as Htr'
      by (rewrite trace_logs, Htr; now rewrite app_assoc).
    destruct res as [[]|e|]; unfold ret;
      eexists _, _, (evs0 ++ evs); (split; [reflexivity|]);
      (split; [exact Htr'|]);
      rewrite deletions_app, Hdel0, ?global_logs; simpl app.
    + tauto.
    + eexists. apply Hout.
    + destruct Hout as (_ & [Hnone|Hboth]); [now left|right].
      eexists. exact Hboth.
    + tauto.
  - exists (Raise e), st1, evs0. split; [reflexivity|].
    split; [exact Htr|now left].
  - exists OutOfFuel, st1, evs0. split; [reflexivity|].
    split; [exact Htr|exact Hdel0].
Qed.

(** Extra X2.  [upload_to_vector_store] calls a deletion only in the failed
    branch of its loop.  If it returns a store, or is still polling, it has
    deleted nothing; if it returns [None] it has called exactly two
    deletions, a vector store and then the file named by the global; if it
    raises, it has called either none or those two. *)
Theorem upload_deletes_only_after_failed_job (fuel : nat)
    (path name : string) (st : state) :
  exists evs,
    trace (snd (upload_to_vector_store w fuel path name st))
    = trace st ++ evs
    /\ match fst (upload_to_vector_store w fuel path name st) with
       | Return (Some _) | OutOfFuel => deletions evs = []
       | Return None =>
           exists id,
             deletions evs
             = [VectorStoresDelete id;
                FilesDelete
                  (UPLOADED_FILE_ID
                     (snd (upload_to_vector_store w fuel path name st)))]
       | Raise _ =>
           deletions evs = []
           \/ exists id,
                deletions evs
                = [VectorStoresDelete id;
                   FilesDelete
                     (UPLOADED_FILE_ID
                        (snd (upload_to_vector_store w fuel path name st)))]
       end.
Proof.
  destruct (upload_outcomes fuel path name st)
    as (res & st' & evs & Hrun & Htr & Hout).
  exists evs. rewrite Hrun. simpl fst; simpl snd. now split.
Qed.

(** Extra X3.  With no file id configured, a failure of [open] leaves
    [upload_to_vector_store] at once, and a failure of the upload leaves it
    after the file has been closed; in both cases nothing else has been
    called and the global is still empty. *)
Theorem upload_failure_leaves_nothing_behind (fuel : nat)
    (path name : string) (st : state) (e : Exception) :
  UPLOADED_FILE_ID st = "" ->
  (w_open w (trace st) path = Err e ->
   upload_to_vector_store w fuel path name st
   = (Raise e, logs [Open path "rb"] st))
  /\ (w_open w (trace st) path = Ok tt ->
      w_files_create w (trace st ++ [Open path "rb"]) path "assistants"
      = Err e ->
      upload_to_vector_store w fuel path name st
      = (Raise e,
         logs [Open path "rb"; FilesCreate path "assistants"; Close path]
           st)).
Proof.
  intros Hfresh. split.
  - intros Hopen.
    now rewrite upload_steps, (ensure_uploaded_fresh w path st Hfresh), Hopen.
  - intros Hopen Hcreate.
    now rewrite upload_steps, (ensure_uploaded_fresh w path st Hfresh),
      Hopen, Hcreate.
Qed.

(** Extra X4.  When a status check raises, or answers "failed" while the
    call for the error detail raises, that exception leaves
    [upload_to_vector_store] right after the check: nothing is printed and
    no deletion is called, so the vector store just created stays. *)
Theorem failed_check_leaves_store_behind (path name : string)
    (st0 st st2 : state) (vs : VectorStore) (vsf : VectorStoreFile)
    (e : Exception) (k fuel : nat) :
  before_polling w path name st0 = (Return (vs, vsf), st) ->
  poll_loop w k vs vsf st = (OutOfFuel, st2) ->
  (w_vector_stores_files_poll w (trace st2) (vsf_id vsf) (vs_id vs) = Err e
   \/ exists r,
        w_vector_stores_files_poll w (trace st2) (vsf_id vsf) (vs_id vs)
        = Ok r
        /\ vsf_status r = "failed"
        /\ vsf_last_error r = Err e) ->
  upload_to_vector_store w (k + S fuel) path name st0
  = (Raise e, logs [VectorStoresFilesPoll (vsf_id vsf) (vs_id vs)] st2).
Proof.
  intros Hbefore Hk Hcheck.
  rewrite (upload_after_before_polling w _ _ _ _ _ _ _ Hbefore).
  rewrite (poll_loop_resume w vs vsf k st st2 Hk).
  destruct Hcheck as [Herr|(r & Hr & Hs & Hd)].
  - now rewrite (poll_raises w vs vsf fuel st2 e Herr).
  - now rewrite (poll_failed_no_detail w vs vsf fuel st2 r e Hr Hs Hd).
Qed.

(** With an id in the global, a call uploads nothing, keeps the global and
    attaches that id if it attaches anything. *)
Lemma upload_with_known_id (fuel : nat) (path name : string) (st : state) :
  UPLOADED_FILE_ID st <> "" ->
  exists evs,
    snd (upload_to_vector_store w fuel path name st) = logs evs st
    /\ uploads evs = 0
    /\ Forall (eq (UPLOADED_FILE_ID st)) (attached_file_ids evs).
Proof.
  intros Hknown.
  rewrite upload_steps, (ensure_uploaded_known w path st Hknown).
  match goal with |- context [bind _ _ ?s] =>
    destruct (after_ensure_uploaded w fuel name s)
      as (evs & Hrun & Hup & Hatt & _) end.
  rewrite Hrun, logs_logs. eexists. split; [reflexivity|].
  rewrite uploads_app, attached_file_ids_app, Hup, Hatt.
  split; [reflexivity|].
  cbn [UPLOADED_FILE_ID logs attached_file_ids app].
  destruct (w_vector_stores_create w _ _); repeat constructor.
Qed.

(** Without one, the id a successful upload returns is in the global when
    the call ends, however it ends. *)
Lemma upload_caches_new_id (fuel : nat) (path name : string) (st : state)
    (f : FileObject) :
  UPLOADED_FILE_ID st = "" ->
  w_open w (trace st) path = Ok tt ->
  w_files_create w (trace st ++ [Open path "rb"]) path "assistants" = Ok f ->
  UPLOADED_FILE_ID (snd (upload_to_vector_store w fuel path name st))
  = fo_id f.
Proof.
  intros Hfresh Hopen Hcreate.
  rewrite upload_steps, (ensure_uploaded_fresh w path st Hfresh),
    Hopen, Hcreate.
  match goal with |- context [bind _ _ ?s] =>
    destruct (after_ensure_uploaded w fuel name s) as (evs & Hrun & _) end.
  now rewrite Hrun.
Qed.

(** Extra X5.  The upload is made once per process, not once per call:
    after a call that uploaded the file and got a non-empty id, every later
    call, whatever its arguments and whatever the first call ran into after
    the upload, uploads nothing and hands that same id to the batch
    attach. *)
Theorem later_calls_reuse_uploaded_file (fuel fuel' : nat)
    (path name path' name' : string) (st : state) (f : FileObject) :
  UPLOADED_FILE_ID st = "" ->
  w_open w (trace st) path = Ok tt ->
  w_files_create w (trace st ++ [Open path "rb"]) path "assistants" = Ok f ->
  fo_id f <> "" ->
  exists evs,
    snd (upload_to_vector_store w fuel' path' name'
           (snd (upload_to_vector_store w fuel path name st)))
    = logs evs (snd (upload_to_vector_store w fuel path name st))
    /\ uploads evs = 0
    /\ Forall (eq (fo_id f)) (attached_file_ids evs).
Proof.
  intros Hfresh Hopen Hcreate Hid.
  pose proof (upload_caches_new_id fuel path name st f Hfresh Hopen Hcreate)
    as Hglobal.
  destruct (upload_with_known_id fuel' path' name'
              (snd (upload_to_vector_store w fuel path name st)))
    as (evs & Hrun & Hup & Hatt); [now rewrite Hglobal|].
  exists evs. rewrite Hglobal in Hatt. now repeat split.
Qed.

(** A loop left by [break] ends on a check answered "completed" and the
    line printed for it. *)
Lemma poll_loop_break (vs : VectorStore) (vsf : VectorStoreFile)
    (fuel : nat) :
  forall st st' : state,
    poll_loop w fuel vs vsf st = (Return Break, st') ->
    exists evs r,
      st' = logs (evs ++ [VectorStoresFilesPoll (vsf_id vsf) (vs_id vs);
                          Print "File batch completed successfully."]) st
      /\ w_vector_stores_files_poll w (trace st ++ evs)
           (vsf_id vsf) (vs_id vs) = Ok r
      /\ vsf_status r = "completed".
Proof.
  induction fuel as [|fuel IH]; intros st st' Hrun; [discriminate|].
  destruct (w_vector_stores_files_poll w (trace st) (vsf_id vsf) (vs_id vs))
    as [r|e] eqn:Hr.
  - destruct (String.eqb_spec (vsf_status r) "completed") as [Hc|Hc].
    { rewrite (poll_completed w vs vsf fuel st r Hr Hc) in Hrun.
      injection Hrun as <-. exists [], r. rewrite app_nil_r. now repeat split. }
    destruct (String.eqb_spec (vsf_status r) "failed") as [Hf|Hf].
    { destruct (vsf_last_error r) as [detail|e] eqn:Hd.
      - rewrite (poll_failed w vs vsf fuel st r detail Hr Hf Hd) in Hrun.
        destruct (cleanup w _ _ _) as [[[]|e|] st'']; discriminate.
      - rewrite (poll_failed_no_detail w vs vsf fuel st r e Hr Hf Hd) in Hrun.
        discriminate. }
    rewrite (poll_pending w vs vsf fuel st r Hr Hc Hf) in Hrun.
    destruct (IH _ _ Hrun) as (evs & r' & -> & Hr' & Hc').
    rewrite trace_logs, <- app_assoc in Hr'.
    eexists. exists r'. rewrite logs_logs, <- app_assoc.
    split; [reflexivity|]. now split.
  - rewrite (poll_raises w vs vsf fuel st e Hr) in Hrun. discriminate.
Qed.

(** Extra X12.  [upload_to_vector_store] returns a store only for a job
    that completed: the last thing it did was a status check on that store
    which the service answered with "completed", followed by the line
    "File batch completed successfully.". *)
Theorem store_returned_only_when_completed (fuel : nat)
    (path name : string) (st st' : state) (vs : VectorStore) :
  upload_to_vector_store w fuel path name st = (Return (Some vs), st') ->
  exists evs file_id r,
    trace st'
    = trace st ++ evs
      ++ [VectorStoresFilesPoll file_id (vs_id vs);
          Print "File batch completed successfully."]
    /\ w_vector_stores_files_poll w (trace st ++ evs) file_id (vs_id vs)
       = Ok r
    /\ vsf_status r = "completed".
Proof.
  intros Hrun.
  destruct (before_polling_frame path name st) as (evs0 & Htr & _).
  destruct (before_polling w path name st) as [[[vs0 vsf]|e|] st1] eqn:Hbefore.
  - rewrite (upload_after_before_polling w _ _ _ _ _ _ _ Hbefore) in Hrun.
    destruct (poll_loop w fuel vs0 vsf st1) as [[[]|e|] st2] eqn:Hloop;
      try discriminate.
    injection Hrun as <- <-.
    destruct (poll_loop_break vs0 vsf fuel st1 st2 Hloop)
      as (evs & r & -> & Hr & Hc).
    simpl in Htr. rewrite Htr, <- app_assoc in Hr.
    exists (evs0 ++ evs), (vsf_id vsf), r.
    rewrite trace_logs, Htr, <- !app_assoc. now repeat split.
  - unfold upload_to_vector_store, bind in Hrun. rewrite Hbefore in Hrun.
    discriminate.
  - unfold upload_to_vector_store, bind in Hrun. rewrite Hbefore in Hrun.
    discriminate.
Qed.

(** ** [cleanup], lines 93-113 *)

(** Extra X6.  A vector store that cannot be deleted does not stop
    [cleanup]: the failure is printed with the id and the message, and
    [cleanup] goes on with the remaining vector stores, the responses and
    the file exactly as if called on the rest of the list.  The same holds
    for the responses once the vector stores are done. *)
Theorem cleanup_goes_on_after_failed_deletion (id : string)
    (ids response_ids : list string) (st : state) :
  cleanup w (id :: ids) response_ids st
  = cleanup w ids response_ids
      (logs (Print ("Deleting vector store " ++ id ++ "...")
             :: VectorStoresDelete id
             :: match w_vector_stores_delete w
                        (trace st
                         ++ [Print ("Deleting vector store " ++ id ++ "...")])
                        id with
                | Ok _ => []
                | Err e =>
                    [Print ("Error deleting vector store " ++ id ++ ": "
                            ++ str e)]
                end) st)
  /\ cleanup w [] (id :: response_ids) st
     = cleanup w [] response_ids
         (logs (Print ("Deleting response " ++ id ++ "...")
                :: ResponsesDelete id
                :: match w_responses_delete w
                           (trace st
                            ++ [Print ("Deleting response " ++ id ++ "...")])
                           id with
                   | Ok _ => []
                   | Err e =>
                       [Print ("Error deleting response " ++ id ++ ": "
                               ++ str e)]
                   end) st).
Proof.
  split.
  - unfold cleanup. cbn [for_in]. rewrite bind_assoc. unfold bind at 1.
    cbv beta.
    now rewrite (guarded_round
      (fun id => "Deleting vector store " ++ id ++ "...")%string
      VectorStoresDelete (w_vector_stores_delete w)
      (fun id e => "Error deleting vector store " ++ id ++ ": " ++ str e)%string
      id st).
  - unfold cleanup. cbn [for_in]. unfold bind at 1. unfold ret at 1.
    rewrite bind_assoc. unfold bind at 1. cbv beta.
    rewrite (guarded_round
      (fun id => "Deleting response " ++ id ++ "...")%string
      ResponsesDelete (w_responses_delete w)
      (fun id e => "Error deleting response " ++ id ++ ": " ++ str e)%string
      id st).
    unfold bind at 2. unfold ret at 1. reflexivity.
Qed.

(** Extra X7.  Whether [cleanup] returns depends on the file deletion
    alone: if that call returns, [cleanup] returns and its last printed line
    is "Cleanup completed.", whatever the deletions of the vector stores and
    of the responses raised. *)
Theorem cleanup_returns_when_file_deletion_does
    (vector_store_ids response_ids : list string) (st : state) :
  (forall h, w_files_delete w h (UPLOADED_FILE_ID st) = Ok tt) ->
  exists evs,
    cleanup w vector_store_ids response_ids st
    = (Return tt, logs (evs ++ [Print "Cleanup completed."]) st)
    /\ deletions evs
       = map VectorStoresDelete vector_store_ids
         ++ map ResponsesDelete response_ids
         ++ [FilesDelete (UPLOADED_FILE_ID st)].
Proof.
  intros Hfile.
  destruct (cleanup_runs w vector_store_ids response_ids st)
    as (evs & Hdel & _ & Hrun).
  rewrite Hrun, Hfile.
  exists (evs ++ [Print "Deleting uploaded file...";
                  FilesDelete (UPLOADED_FILE_ID st)]).
  split; [now rewrite <- app_assoc|].
  now rewrite deletions_app, Hdel, <- app_assoc.
Qed.

(** Extra X8.  [cleanup] calls nothing but deletions and [print], and it
    does not reset [UPLOADED_FILE_ID]: a second [cleanup] asks again for the
    deletion of the same file. *)
Theorem cleanup_keeps_the_file_id
    (vector_store_ids response_ids vector_store_ids' response_ids'
       : list string) (st : state) :
  exists evs evs',
    snd (cleanup w vector_store_ids response_ids st) = logs evs st
    /\ Forall (fun ev => quiet ev = true) evs
    /\ snd (cleanup w vector_store_ids' response_ids'
              (snd (cleanup w vector_store_ids response_ids st)))
       = logs (evs ++ evs') st
    /\ deletions evs'
       = map VectorStoresDelete vector_store_ids'
         ++ map ResponsesDelete response_ids'
         ++ [FilesDelete (UPLOADED_FILE_ID st)].
Proof.
  assert (forall vs rs s, exists evs,
             snd (cleanup w vs rs s) = logs evs s
             /\ Forall (fun ev => quiet ev = true) evs
             /\ deletions evs
                = map VectorStoresDelete vs ++ map ResponsesDelete rs
                  ++ [FilesDelete (UPLOADED_FILE_ID s)]) as Hone.
  { intros vs rs s.
    destruct (cleanup_runs w vs rs s) as (evs & Hdel & Hq & Hrun).
    rewrite Hrun.
    destruct (w_files_delete w _ _) as [[]|e]; eexists;
      (split; [reflexivity|]);
      (split; [apply Forall_app; split; [exact Hq|repeat constructor]|]);
      now rewrite deletions_app, Hdel, <- app_assoc. }
  destruct (Hone vector_store_ids response_ids st) as (evs & Hrun & Hq & _).
  destruct (Hone vector_store_ids' response_ids'
              (snd (cleanup w vector_store_ids response_ids st)))
    as (evs' & Hrun' & _ & Hdel').
  exists evs, evs'. split; [exact Hrun|]. split; [exact Hq|].
  rewrite Hrun', Hrun, logs_logs. split; [reflexivity|].
  rewrite Hdel', Hrun. reflexivity.
Qed.

(** ** [main], lines 127-162 *)

Section Main.

Variable model : option string.

(** The call of lines 134-155, for the vector store [id]. *)
Local Abbreviation question id :=
  (ResponsesCreate model "What is Contoso Travel Agency's phone number?"
     [id] 1 "category" "Marketing" ["file_search_call.results"]).

(** Once the response is there, [main] is [cleanup] of the store and the
    response; what [model_dump_json] raises is printed like any failure. *)
Lemma main_after_response (fuel : nat) (st st1 : state) (vs : VectorStore)
    (response : Response) :
  upload_to_vector_store w fuel "./Contoso_Brochure.pdf" "Travel Brochure" st
  = (Return (Some vs), st1) ->
  w_responses_create w (trace st1) [vs_id vs] = Ok response ->
  main w model fuel st
  = cleanup w [vs_id vs] [resp_id response]
      (logs [question (vs_id vs);
             Print match resp_model_dump_json response 2 with
                   | Ok json => json
                   | Err e => "An error occurred: " ++ str e
                   end] st1).
Proof.
  intros Hup Hresp. unfold main, main_try. rewrite Hup.
  unfold vector_store_dot_id, bind, ret, call, invoke. rewrite Hresp.
  destruct (resp_model_dump_json response 2) as [json|e];
    unfold print, load, ret; cbn [vector_store_var response_var];
    rewrite !log_logs, ?logs_logs; reflexivity.
Qed.

(** When the question cannot be asked, the failure is printed and line 162
    reads [response], which was never assigned. *)
Lemma main_after_failed_question (fuel : nat) (st st1 : state)
    (vs : VectorStore) (e : Exception) :
  upload_to_vector_store w fuel "./Contoso_Brochure.pdf" "Travel Brochure" st
  = (Return (Some vs), st1) ->
  w_responses_create w (trace st1) [vs_id vs] = Err e ->
  main w model fuel st
  = (Raise (UnboundLocalError
              "cannot access local variable 'response' where it is not associated with a value"),
     logs [question (vs_id vs); Print ("An error occurred: " ++ str e)] st1).
Proof.
  intros Hup Hresp. unfold main, main_try. rewrite Hup.
  unfold vector_store_dot_id, bind, ret, call. rewrite Hresp.
  unfold print, load, raise; cbn [vector_store_var response_var].
  rewrite !log_logs, ?logs_logs; reflexivity.
Qed.

Lemma main_while_polling (fuel : nat) (st st1 : state) :
  upload_to_vector_store w fuel "./Contoso_Brochure.pdf" "Travel Brochure" st
  = (OutOfFuel, st1) ->
  main w model fuel st = (OutOfFuel, st1).
Proof.
  intros Hup. unfold main, main_try. now rewrite Hup.
Qed.

(** Extra X9.  Once [upload_to_vector_store] has returned a store and the
    question has been answered, [main] goes on as [cleanup] of that store
    and that response -- a failure of [model_dump_json] is only printed --
    and so calls exactly three deletions: the store, the response, the
    file. *)
Theorem main_cleans_up_after_response (fuel : nat) (st st1 : state)
    (vs : VectorStore) (response : Response) :
  upload_to_vector_store w fuel "./Contoso_Brochure.pdf" "Travel Brochure" st
  = (Return (Some vs), st1) ->
  w_responses_create w (trace st1) [vs_id vs] = Ok response ->
  exists evs,
    snd (main w model fuel st)
    = logs ([question (vs_id vs);
             Print match resp_model_dump_json response 2 with
                   | Ok json => json
                   | Err e => "An error occurred: " ++ str e
                   end] ++ evs) st1
    /\ deletions evs
       = [VectorStoresDelete (vs_id vs); ResponsesDelete (resp_id response);
          FilesDelete (UPLOADED_FILE_ID st1)].
Proof.
  intros Hup Hresp. rewrite (main_after_response fuel st st1 vs response Hup Hresp).
  match goal with |- context [cleanup w ?a ?b ?s] =>
    destruct (cleanup_runs w a b s) as (evs & Hdel & _ & Hrun) end.
  rewrite Hrun, global_logs.
  destruct (w_files_delete w _ _) as [[]|e]; eexists;
    simpl snd; rewrite logs_logs; (split; [reflexivity|]);
    now rewrite deletions_app, Hdel.
Qed.

(** Extra X10.  After any failure that comes before [response] is assigned
    -- [upload_to_vector_store] raising, or returning [None] for a failed
    job, or the question raising -- [main] prints the failure and then
    raises on line 162, having called no deletion: what the run created up
    to then stays on the service. *)
Theorem main_gives_up_cleanup_after_failure (fuel : nat) (st st1 : state) :
  (forall e,
      upload_to_vector_store w fuel "./Contoso_Brochure.pdf"
        "Travel Brochure" st = (Raise e, st1) ->
      main w model fuel st
      = (Raise (UnboundLocalError
                  "cannot access local variable 'vector_store' where it is not associated with a value"),
         logs [Print ("An error occurred: " ++ str e)] st1))
  /\ (upload_to_vector_store w fuel "./Contoso_Brochure.pdf"
        "Travel Brochure" st = (Return None, st1) ->
      main w model fuel st
      = (Raise (AttributeError "'NoneType' object has no attribute 'id'"),
         logs [Print "An error occurred: 'NoneType' object has no attribute 'id'"]
           st1))
  /\ (forall vs e,
        upload_to_vector_store w fuel "./Contoso_Brochure.pdf"
          "Travel Brochure" st = (Return (Some vs), st1) ->
        w_responses_create w (trace st1) [vs_id vs] = Err e ->
        main w model fuel st
        = (Raise (UnboundLocalError
                    "cannot access local variable 'response' where it is not associated with a value"),
           logs [question (vs_id vs);
                 Print ("An error occurred: " ++ str e)] st1)).
Proof.
  split; [|split].
  - intros e Hup. now apply main_after_failed_upload.
  - intros Hup. now apply main_after_failed_job.
  - intros vs e Hup Hresp. now apply main_after_failed_question.
Qed.

(** Extra X11.  [main] returns normally only after a full cleanup: the
    question was asked about a vector store, and the deletions of the whole
    run are exactly that store, the response and the file named by the
    global. *)
Theorem main_returns_only_after_cleanup (fuel : nat) (st : state) :
  fst (main w model fuel st) = Return tt ->
  exists evs vector_store_id response_id,
    trace (snd (main w model fuel st)) = trace st ++ evs
    /\ In (question vector_store_id) evs
    /\ deletions evs
       = [VectorStoresDelete vector_store_id; ResponsesDelete response_id;
          FilesDelete (UPLOADED_FILE_ID (snd (main w model fuel st)))].
Proof.
  intros Hret.
  destruct (upload_outcomes fuel "./Contoso_Brochure.pdf" "Travel Brochure"
              st) as (res & st1 & evs0 & Hup & Htr & Hout).
  destruct res as [[vs|]|e|].
  - destruct (w_responses_create w (trace st1) [vs_id vs])
      as [response|e] eqn:Hresp.
    + rewrite (main_after_response fuel st st1 vs response Hup Hresp) in *.
      match goal with |- context [cleanup w ?a ?b ?s] =>
        destruct (cleanup_runs w a b s) as (evs & Hdel & _ & Hrun) end.
      rewrite Hrun in *. rewrite global_logs in *.
      destruct (w_files_delete w _ _) as [[]|e]; [|discriminate].
      eexists. exists (vs_id vs), (resp_id response).
      simpl snd. rewrite logs_logs, trace_logs, Htr, <- app_assoc.
      split; [reflexivity|]. split.
      * apply in_or_app. right. now left.
      * rewrite !deletions_app, Hout, Hdel. reflexivity.
    + rewrite (main_after_failed_question fuel st st1 vs e Hup Hresp) in Hret.
      discriminate.
  - rewrite (main_after_failed_job w model fuel st st1 Hup) in Hret.
    discriminate.
  - rewrite (main_after_failed_upload w model fuel st st1 e Hup) in Hret.
    discriminate.
  - rewrite (main_while_polling fuel st st1 Hup) in Hret. discriminate.
Qed.

End Main.

End Further.

(** ** The further properties at work on scripted services *)

(** X3 at work: the file is missing; the upload is refused. *)
Lemma upload_failure_leaves_nothing_behind_witness :
  upload_to_vector_store world_no_file 1 brochure travel fresh
  = (Raise (APIError "No such file or directory: './Contoso_Brochure.pdf'"),
     logs [Open brochure "rb"] fresh)
  /\ upload_to_vector_store world_no_upload 1 brochure travel fresh
     = (Raise (APIError "Invalid file format."),
        logs [Open brochure "rb"; FilesCreate brochure "assistants";
              Close brochure] fresh).
Proof.
  split.
  - exact (proj1 (upload_failure_leaves_nothing_behind world_no_file 1
                    brochure travel fresh _ eq_refl) eq_refl).
  - exact (proj2 (upload_failure_leaves_nothing_behind world_no_upload 1
                    brochure travel fresh _ eq_refl) eq_refl eq_refl).
Defined.

(** X4 at work: the check raises; the job fails and the call for the detail
    raises. *)
Lemma failed_check_leaves_store_behind_witness :
  upload_to_vector_store world_no_check (0 + 1) brochure travel fresh
  = (Raise (APIError "Request timed out."),
     logs [VectorStoresFilesPoll "file_1" "vs_1"]
       (snd (before_polling world_no_check brochure travel fresh)))
  /\ upload_to_vector_store world_no_detail (0 + 1) brochure travel fresh
     = (Raise (APIError "'LastError' object is not callable"),
        logs [VectorStoresFilesPoll "file_1" "vs_1"]
          (snd (before_polling world_no_detail brochure travel fresh))).
Proof.
  split.
  - exact (failed_check_leaves_store_behind world_no_check brochure travel
             fresh
             (snd (before_polling world_no_check brochure travel fresh))
             (snd (before_polling world_no_check brochure travel fresh))
             store_1 (attached "file_1" (Ok "")) _ 0 0
             eq_refl eq_refl (or_introl eq_refl)).
  - exact (failed_check_leaves_store_behind world_no_detail brochure travel
             fresh
             (snd (before_polling world_no_detail brochure travel fresh))
             (snd (before_polling world_no_detail brochure travel fresh))
             store_1
             (attached "file_1"
                (Err (APIError "'LastError' object is not callable")))
             _ 0 0 eq_refl eq_refl
             (or_intror
                (ex_intro _
                   (checked "file_1" "failed"
                      (Err (APIError "'LastError' object is not callable")))
                   (conj eq_refl (conj eq_refl eq_refl))))).
Defined.

(** X5 at work: a first call whose job fails, then a second call. *)
Lemma later_calls_reuse_uploaded_file_witness :
  exists evs,
    snd (upload_to_vector_store world_failed 1 brochure travel
           (snd (upload_to_vector_store world_failed 1 brochure travel
                   fresh)))
    = logs evs
        (snd (upload_to_vector_store world_failed 1 brochure travel fresh))
    /\ uploads evs = 0
    /\ Forall (eq "file_1"%string) (attached_file_ids evs).
Proof.
  assert (fo_id {| fo_id := "file_1" |} <> ""%string) as Hid
    by discriminate.
  exact (later_calls_reuse_uploaded_file world_failed 1 1 brochure travel
           brochure travel fresh {| fo_id := "file_1" |}
           eq_refl eq_refl eq_refl Hid).
Defined.

(** X7 at work: the vector store cannot be deleted, the file can. *)
Lemma cleanup_returns_when_file_deletion_does_witness :
  exists evs,
    cleanup world_store_stays ["vs_1"] ["resp_1"] configured
    = (Return tt, logs (evs ++ [Print "Cleanup completed."]) configured)
    /\ deletions evs
       = [VectorStoresDelete "vs_1"; ResponsesDelete "resp_1";
          FilesDelete "file_0"].
Proof.
  exact (cleanup_returns_when_file_deletion_does world_store_stays
           ["vs_1"] ["resp_1"] configured (fun _ => eq_refl)).
Defined.

(** X9 at work: a run in which every call succeeds. *)
Lemma main_cleans_up_after_response_witness :
  exists evs,
    snd (main world_completed None 1 fresh)
    = logs ([ResponsesCreate None
               "What is Contoso Travel Agency's phone number?"
               ["vs_1"] 1 "category" "Marketing"
               ["file_search_call.results"];
             Print "{}"] ++ evs)
        (snd (upload_to_vector_store world_completed 1 brochure travel
                fresh))
    /\ deletions evs
       = [VectorStoresDelete "vs_1"; ResponsesDelete "resp_1";
          FilesDelete "file_1"].
Proof.
  exact (main_cleans_up_after_response world_completed None 1 fresh
           (snd (upload_to_vector_store world_completed 1 brochure travel
                   fresh))
           store_1 response_1 eq_refl eq_refl).
Defined.

(** X10 at work: the question cannot be asked. *)
Lemma main_gives_up_cleanup_after_failure_witness :
  main world_no_response None 1 fresh
  = (Raise (UnboundLocalError
              "cannot access local variable 'response' where it is not associated with a value"),
     logs [ResponsesCreate None
             "What is Contoso Travel Agency's phone number?"
             ["vs_1"] 1 "category" "Marketing"
             ["file_search_call.results"];
           Print "An error occurred: Rate limit reached."]
       (snd (upload_to_vector_store world_no_response 1 brochure travel
               fresh))).
Proof.
  exact (proj2 (proj2 (main_gives_up_cleanup_after_failure world_no_response
                         None 1 fresh
                         (snd (upload_to_vector_store world_no_response 1
                                 brochure travel fresh))))
           store_1 _ eq_refl eq_refl).
Defined.

(** X11 at work on the run in which every call succeeds. *)
Lemma main_returns_only_after_cleanup_witness :
  exists evs vector_store_id response_id,
    trace (snd (main world_completed None 1 fresh)) = [] ++ evs
    /\ In (ResponsesCreate None
             "What is Contoso Travel Agency's phone number?"
             [vector_store_id] 1 "category" "Marketing"
             ["file_search_call.results"]) evs
    /\ deletions evs
       = [VectorStoresDelete vector_store_id; ResponsesDelete response_id;
          FilesDelete
            (UPLOADED_FILE_ID (snd (main world_completed None 1 fresh)))].
Proof.
  exact (main_returns_only_after_cleanup world_completed None 1 fresh
           eq_refl).
Defined.

(** X12 at work: the job that needs three checks. *)
Lemma store_returned_only_when_completed_witness :
  exists evs file_id r,
    trace (snd (upload_to_vector_store world_three_checks 3 brochure travel
                  fresh))
    = [] ++ evs
      ++ [VectorStoresFilesPoll file_id "vs_1";
          Print "File batch completed successfully."]
    /\ w_vector_stores_files_poll world_three_checks ([] ++ evs)
         file_id "vs_1" = Ok r
    /\ vsf_status r = "completed"%string.
Proof.
  exact (store_returned_only_when_completed world_three_checks 3 brochure
           travel fresh
           (snd (upload_to_vector_store world_three_checks 3 brochure travel
                   fresh))
           store_1 eq_refl).
Defined.
